(** * Inactivity state machine of the screensaver manager

    A shallow embedding of [src/core/screensaver_manager.py] (class
    [ScreensaverManager], with the stop path of its sibling class
    [InactivityMonitor]) and of the close path of
    [src/ui/screensaver_window.py], followed by the properties of the
    poll cycle, of activation and deactivation, of the screen-off timer
    and of cleanup.

    Conventions of the embedding:
    - the monotonic clock is an integer number of milliseconds, the unit
      of the Qt timers; the source's test in seconds,
      [now - last_input_time >= delay_seconds], is the same test with
      both sides multiplied by [ms_per_second];
    - the manager object is a record, every method a function from
      manager to manager; what a method reads from its surroundings (the
      clock, the connected screens, the top-level windows of the desktop)
      is an explicit argument;
    - log lines, emitted Qt signals and the monitor power command are
      appended, in order, to the [events] field;
    - a [try]/[except] block is a match on an outcome that is either a
      completed run or a raised exception with the state reached. *)

From Stdlib Require Import ZArith List String Ascii Bool Lia DecimalString.
Import ListNotations.

Open Scope string_scope.
Open Scope list_scope.
Open Scope Z_scope.

(** ** The clock and the Qt timers *)

Definition ms_per_second : Z := 1000.

Module QTimer.

(** A [QTimer]: whether it is armed, its period in milliseconds, the
    single-shot flag, and the clock reading at which it next times
    out. *)
Record t : Type := mk
  { active : bool;
    interval : Z;
    singleShot : bool;
    deadline : Z }.

Definition new : t := mk false 0 false 0.

Definition setSingleShot (b : bool) (q : t) : t :=
  mk (active q) (interval q) b (deadline q).

Definition start (now msec : Z) (q : t) : t :=
  mk true msec (singleShot q) (now + msec).

Definition stop (q : t) : t :=
  mk false (interval q) (singleShot q) (deadline q).

Definition isActive (q : t) : bool := active q.

(** Changing the period of a running timer re-arms it with the new
    period. *)
Definition setInterval (now msec : Z) (q : t) : t :=
  mk (active q) msec (singleShot q)
     (if active q then now + msec else deadline q).

(** The timer times out at [now]. *)
Definition due (now : Z) (q : t) : bool :=
  active q && (deadline q <=? now).

(** The timer after it timed out at [now]: a single-shot timer is
    disarmed, a periodic one waits for its next period. *)
Definition fired (now : Z) (q : t) : t :=
  if singleShot q then stop q
  else mk true (interval q) false (now + interval q).

End QTimer.

(** ** Configuration

    The values [config_manager.get] returns for the four keys the manager
    reads; a missing key is the default of the call. *)

Record Config : Type :=
  { delay_minutes : Z;                   (* activation.delay_minutes, 5 *)
    check_interval_seconds : Z;          (* activation.check_interval_seconds, 30 *)
    enable_auto_activation : bool;       (* activation.enable_auto_activation, True *)
    turn_off_screen_delay_minutes : Z }. (* system.turn_off_screen_delay_minutes, 0 *)

Definition default_config : Config :=
  {| delay_minutes := 5;
     check_interval_seconds := 30;
     enable_auto_activation := true;
     turn_off_screen_delay_minutes := 0 |}.

(** ** Screens and overlay windows *)

(** A connected display, as [QApplication.screens()] lists it.
    [surface_error] is the text of the exception the constructor
    [ScreensaverWindow(screen, config_manager)] raises for this display,
    if it raises. *)
Record QScreen : Type :=
  { screen_id : nat;
    surface_error : option string }.

(** A [ScreensaverWindow]: its display, whether it is shown, whether its
    redraw timer runs, and Qt's guard against closing a widget that is
    already being closed. *)
Record ScreensaverWindow : Type :=
  { screen : QScreen;
    shown : bool;
    update_timer_active : bool;
    is_closing : bool }.

(** [ScreensaverWindow.__init__]: the window is built hidden with its
    redraw timer started. *)
Definition new_window (s : QScreen) : ScreensaverWindow :=
  {| screen := s; shown := false; update_timer_active := true;
     is_closing := false |}.

Definition showFullScreen (w : ScreensaverWindow) : ScreensaverWindow :=
  {| screen := screen w; shown := true;
     update_timer_active := update_timer_active w;
     is_closing := is_closing w |}.

(** ** Events the manager produces *)

Inductive Event : Type :=
| Log_info (msg : string)
| Log_error (msg : string)
| Emit_screensaver_activated
| Emit_screensaver_deactivated
| Emit_error_occurred (msg : string)
| SendMessageW_monitor_off.

Definition is_power_off (e : Event) : bool :=
  match e with SendMessageW_monitor_off => true | _ => false end.

Definition is_signal (e : Event) : bool :=
  match e with
  | Emit_screensaver_activated | Emit_screensaver_deactivated
  | Emit_error_occurred _ => true
  | _ => false
  end.

(** ** The manager *)

Inductive State : Type := IDLE | WAITING | ACTIVE.

Definition State_eqb (a b : State) : bool :=
  match a, b with
  | IDLE, IDLE | WAITING, WAITING | ACTIVE, ACTIVE => true
  | _, _ => false
  end.

Definition State_name (s : State) : string :=
  match s with IDLE => "IDLE" | WAITING => "WAITING" | ACTIVE => "ACTIVE" end.

(** A pynput listener thread. *)
Record Listener : Type := { alive : bool }.

Record ScreensaverManager : Type := mkManager
  { config : Config;
    state : State;
    is_active : bool;
    screensaver_windows : list ScreensaverWindow;
    last_input_time : Z;
    _last_polled_time : Z;
    last_media_check : Z;
    media_active : bool;
    poll_timer : QTimer.t;
    screensaver_off_timer : QTimer.t;
    hotkeys_bound : bool;
    config_updated_connected : bool;
    off_timer_connected : bool;
    _input_activity : bool;
    _mouse_listener : Listener;
    _keyboard_listener : Listener;
    events : list Event }.

(** Field assignments. *)

Definition set_state (v : State) (m : ScreensaverManager) :=
  mkManager (config m) v (is_active m) (screensaver_windows m)
    (last_input_time m) (_last_polled_time m) (last_media_check m)
    (media_active m) (poll_timer m) (screensaver_off_timer m)
    (hotkeys_bound m) (config_updated_connected m) (off_timer_connected m)
    (_input_activity m) (_mouse_listener m) (_keyboard_listener m) (events m).

Definition set_is_active (v : bool) (m : ScreensaverManager) :=
  mkManager (config m) (state m) v (screensaver_windows m)
    (last_input_time m) (_last_polled_time m) (last_media_check m)
    (media_active m) (poll_timer m) (screensaver_off_timer m)
    (hotkeys_bound m) (config_updated_connected m) (off_timer_connected m)
    (_input_activity m) (_mouse_listener m) (_keyboard_listener m) (events m).

Definition set_windows (v : list ScreensaverWindow) (m : ScreensaverManager) :=
  mkManager (config m) (state m) (is_active m) v
    (last_input_time m) (_last_polled_time m) (last_media_check m)
    (media_active m) (poll_timer m) (screensaver_off_timer m)
    (hotkeys_bound m) (config_updated_connected m) (off_timer_connected m)
    (_input_activity m) (_mouse_listener m) (_keyboard_listener m) (events m).

Definition set_last_input_time (v : Z) (m : ScreensaverManager) :=
  mkManager (config m) (state m) (is_active m) (screensaver_windows m)
    v (_last_polled_time m) (last_media_check m)
    (media_active m) (poll_timer m) (screensaver_off_timer m)
    (hotkeys_bound m) (config_updated_connected m) (off_timer_connected m)
    (_input_activity m) (_mouse_listener m) (_keyboard_listener m) (events m).

Definition set_poll_timer (v : QTimer.t) (m : ScreensaverManager) :=
  mkManager (config m) (state m) (is_active m) (screensaver_windows m)
    (last_input_time m) (_last_polled_time m) (last_media_check m)
    (media_active m) v (screensaver_off_timer m)
    (hotkeys_bound m) (config_updated_connected m) (off_timer_connected m)
    (_input_activity m) (_mouse_listener m) (_keyboard_listener m) (events m).

Definition set_off_timer (v : QTimer.t) (m : ScreensaverManager) :=
  mkManager (config m) (state m) (is_active m) (screensaver_windows m)
    (last_input_time m) (_last_polled_time m) (last_media_check m)
    (media_active m) (poll_timer m) v
    (hotkeys_bound m) (config_updated_connected m) (off_timer_connected m)
    (_input_activity m) (_mouse_listener m) (_keyboard_listener m) (events m).

Definition set_connections (cu ot : bool) (m : ScreensaverManager) :=
  mkManager (config m) (state m) (is_active m) (screensaver_windows m)
    (last_input_time m) (_last_polled_time m) (last_media_check m)
    (media_active m) (poll_timer m) (screensaver_off_timer m)
    (hotkeys_bound m) cu ot
    (_input_activity m) (_mouse_listener m) (_keyboard_listener m) (events m).

Definition set_input_activity (v : bool) (m : ScreensaverManager) :=
  mkManager (config m) (state m) (is_active m) (screensaver_windows m)
    (last_input_time m) (_last_polled_time m) (last_media_check m)
    (media_active m) (poll_timer m) (screensaver_off_timer m)
    (hotkeys_bound m) (config_updated_connected m) (off_timer_connected m)
    v (_mouse_listener m) (_keyboard_listener m) (events m).

Definition set_config (v : Config) (m : ScreensaverManager) :=
  mkManager v (state m) (is_active m) (screensaver_windows m)
    (last_input_time m) (_last_polled_time m) (last_media_check m)
    (media_active m) (poll_timer m) (screensaver_off_timer m)
    (hotkeys_bound m) (config_updated_connected m) (off_timer_connected m)
    (_input_activity m) (_mouse_listener m) (_keyboard_listener m) (events m).

Definition emit (e : Event) (m : ScreensaverManager) :=
  mkManager (config m) (state m) (is_active m) (screensaver_windows m)
    (last_input_time m) (_last_polled_time m) (last_media_check m)
    (media_active m) (poll_timer m) (screensaver_off_timer m)
    (hotkeys_bound m) (config_updated_connected m) (off_timer_connected m)
    (_input_activity m) (_mouse_listener m) (_keyboard_listener m)
    (events m ++ [e]).

Definition show_Z (z : Z) : string := NilZero.string_of_int (Z.to_int z).

(** ** Foreground inspection: [_is_video_playing] *)

(** A top-level window as [win32gui.EnumWindows] hands it to the
    handler.  [owner_exe] is [psutil.Process(pid).name()], or [None] when
    looking the process up raises; [window_rect] is the tuple
    [rect] of left, top, right and bottom edges, or [None] when
    [GetWindowRect] raises. *)
Record HWND : Type :=
  { owner_exe : option string;
    window_visible : bool;
    window_rect : option (Z * Z * Z * Z) }.

(** The desktop one poll looks at: the enumeration of its top-level
    windows ([inl e] when the enumeration or an import raises [e]) and
    the two system metrics. *)
Record Desktop : Type :=
  { top_level_windows : string + list HWND;
    SM_CXSCREEN : Z;
    SM_CYSCREEN : Z }.

Definition video_apps : list string :=
  [ "vlc.exe"; "potplayer.exe"; "mpc-hc.exe"; "mpc-be.exe"; "wmplayer.exe";
    "chrome.exe"; "msedge.exe"; "firefox.exe"; "opera.exe"; "brave.exe";
    "iexplore.exe"; "moviesandtv.exe"; "netflix.exe"; "disneyplus.exe" ].

(** [str.lower] on the ASCII letters. *)
Definition lower_ascii (c : ascii) : ascii :=
  let n := nat_of_ascii c in
  if ((65 <=? n) && (n <=? 90))%nat then ascii_of_nat (n + 32) else c.

Fixpoint lower (s : string) : string :=
  match s with
  | EmptyString => EmptyString
  | String c r => String (lower_ascii c) (lower r)
  end.

Definition str_in (s : string) (l : list string) : bool :=
  existsb (String.eqb s) l.

(** The inner [is_fullscreen]; [None] is a raised exception. *)
Definition is_fullscreen (d : Desktop) (hwnd : HWND) : option bool :=
  if negb (window_visible hwnd) then Some false
  else
    match window_rect hwnd with
    | None => None
    | Some (r0, r1, r2, r3) =>
        let sw := SM_CXSCREEN d in
        let sh := SM_CYSCREEN d in
        Some ((sw - 10 <=? r2 - r0) && (sh - 40 <=? r3 - r1))
    end.

(** The inner [is_video_window]: any exception is swallowed. *)
Definition is_video_window (d : Desktop) (hwnd : HWND) : bool :=
  match owner_exe hwnd with
  | None => false
  | Some name =>
      let exe := lower name in
      if str_in exe video_apps then
        match is_fullscreen d hwnd with
        | Some true => true
        | Some false => false
        | None => false
        end
      else false
  end.

Definition _is_video_playing (d : Desktop) (m : ScreensaverManager)
  : bool * ScreensaverManager :=
  match top_level_windows d with
  | inr hwnds => (existsb (is_video_window d) hwnds, m)
  | inl e => (false, emit (Log_error ("Error in video detection: " ++ e)) m)
  end.

(** ** Polling control and the state field *)

Definition start_monitoring (now : Z) (m : ScreensaverManager) :=
  let interval := check_interval_seconds (config m) in
  let m := set_poll_timer (QTimer.start now (interval * 1000) (poll_timer m)) m in
  emit (Log_info "Inactivity polling started") m.

Definition stop_monitoring (m : ScreensaverManager) :=
  let m := set_poll_timer (QTimer.stop (poll_timer m)) m in
  emit (Log_info "Inactivity polling stopped") m.

Definition _set_state (new_state : State) (m : ScreensaverManager) :=
  if negb (State_eqb (state m) new_state) then
    let m := emit (Log_info ("State changed: " ++ State_name (state m)
                             ++ " -> " ++ State_name new_state)) m in
    set_state new_state m
  else m.

(** Reads and clears the flag the input listeners set. *)
Definition _user_is_active (m : ScreensaverManager)
  : bool * ScreensaverManager :=
  if _input_activity m then (true, set_input_activity false m)
  else (false, m).

(** ** Activation *)

Inductive Outcome : Type :=
| Returned (m : ScreensaverManager)
| Raised (e : string) (m : ScreensaverManager).

(** The loop [for screen in screens] of [_activate_screensaver]: the
    first display whose window cannot be built raises out of the loop. *)
Fixpoint create_windows (screens : list QScreen) (m : ScreensaverManager)
  : Outcome :=
  match screens with
  | [] => Returned m
  | s :: rest =>
      match surface_error s with
      | Some e => Raised e m
      | None =>
          let window := new_window s in
          (* window.closed.connect(self.deactivate_screensaver):
             see [close_window] *)
          let window := showFullScreen window in
          let m := set_windows (screensaver_windows m ++ [window]) m in
          create_windows rest m
      end
  end.

Definition _activate_screensaver (now : Z) (screens : list QScreen)
  (m : ScreensaverManager) : ScreensaverManager :=
  if is_active m then m
  else
    let m := emit (Log_info "Activating screensaver...") m in
    match create_windows screens m with
    | Returned m =>
        let m := set_is_active true m in
        let m := emit Emit_screensaver_activated m in
        let m := stop_monitoring m in
        let turn_off_delay := turn_off_screen_delay_minutes (config m) in
        if 0 <? turn_off_delay then
          let m := set_off_timer
                     (QTimer.start now (turn_off_delay * 60 * 1000)
                        (screensaver_off_timer m)) m in
          emit (Log_info ("Screen off timer started for "
                          ++ show_Z turn_off_delay ++ " minutes")) m
        else m
    | Raised e m =>
        let m := emit (Log_error ("Failed to activate screensaver: " ++ e)) m in
        emit (Emit_error_occurred ("Screensaver activation error: " ++ e)) m
    end.

(** ** Closing a window, and deactivation

    [window.close()] delivers the close event to the window, whose
    [closeEvent] stops the redraw timer and emits [closed]; [closed] is
    connected to [deactivate_screensaver], which therefore runs inside
    the call of [close], also when the call comes from the loop of
    [deactivate_screensaver] itself.  Qt returns at once from [close] on a
    widget that is already being closed, which bounds the nesting by the
    number of windows.  The nesting is the [fuel] below;
    [deactivate_fuel_total] shows that the fuel given by
    [deactivate_screensaver] is never used up. *)

Fixpoint update_nth {A : Type} (i : nat) (f : A -> A) (l : list A)
  {struct l} : list A :=
  match l, i with
  | [], _ => []
  | x :: r, O => f x :: r
  | x :: r, S j => x :: update_nth j f r
  end.

Definition update_window (i : nat) (f : ScreensaverWindow -> ScreensaverWindow)
  (m : ScreensaverManager) : ScreensaverManager :=
  set_windows (update_nth i f (screensaver_windows m)) m.

Definition begin_close (w : ScreensaverWindow) : ScreensaverWindow :=
  {| screen := screen w; shown := shown w;
     update_timer_active := update_timer_active w; is_closing := true |}.

Definition stop_update_timer (w : ScreensaverWindow) : ScreensaverWindow :=
  {| screen := screen w; shown := shown w;
     update_timer_active := false; is_closing := is_closing w |}.

Definition end_close (w : ScreensaverWindow) : ScreensaverWindow :=
  {| screen := screen w; shown := false;
     update_timer_active := update_timer_active w; is_closing := false |}.

(** [ScreensaverWindow.closeEvent] of the [i]-th window; [closed_slot]
    is the slot connected to its [closed] signal. *)
Definition closeEvent (closed_slot : ScreensaverManager -> option ScreensaverManager)
  (i : nat) (m : ScreensaverManager) : option ScreensaverManager :=
  let m := update_window i stop_update_timer m in
  closed_slot m.

(** [window.close()] on the [i]-th window of the session list.  When the
    close event returns, the widget is hidden and may be closed again; a
    window that [closed_slot] dropped from the list is out of reach. *)
Definition close_window (closed_slot : ScreensaverManager -> option ScreensaverManager)
  (i : nat) (m : ScreensaverManager) : option ScreensaverManager :=
  match nth_error (screensaver_windows m) i with
  | None => Some m
  | Some w =>
      if is_closing w then Some m
      else
        let m := update_window i begin_close m in
        match closeEvent closed_slot i m with
        | None => None
        | Some m => Some (update_window i end_close m)
        end
  end.

(** The loop [for window in self.screensaver_windows: window.close()]:
    a Python list iterator, an index checked against the current length
    of the list at every step.  [steps] is the length at the start; the
    list does not grow in the loop. *)
Fixpoint close_all (closed_slot : ScreensaverManager -> option ScreensaverManager)
  (steps i : nat) (m : ScreensaverManager) : option ScreensaverManager :=
  match steps with
  | O => Some m
  | S steps' =>
      match nth_error (screensaver_windows m) i with
      | None => Some m
      | Some _ =>
          match close_window closed_slot i m with
          | None => None
          | Some m => close_all closed_slot steps' (S i) m
          end
      end
  end.

(** [deactivate_screensaver] with [fuel] levels of nesting left; [None]
    is fuel used up.  None of the modelled statements of its [try] block
    raises, so its [except] branch has no counterpart here. *)
Fixpoint deactivate_fuel (fuel : nat) (now : Z) (m : ScreensaverManager)
  : option ScreensaverManager :=
  match fuel with
  | O => None
  | S fuel' =>
      if negb (is_active m) then Some m
      else
        let m := emit (Log_info "Deactivating screensaver...") m in
        let m :=
          if QTimer.isActive (screensaver_off_timer m) then
            let m := set_off_timer (QTimer.stop (screensaver_off_timer m)) m in
            emit (Log_info "Screen off timer stopped") m
          else m in
        match close_all (deactivate_fuel fuel' now)
                (List.length (screensaver_windows m)) 0 m with
        | None => None
        | Some m =>
            let m := set_windows [] m in
            let m := set_is_active false m in
            let m := emit Emit_screensaver_deactivated m in
            if enable_auto_activation (config m) then
              Some (start_monitoring now m)
            else Some m
        end
  end.

Definition deactivate_slot (now : Z) (m : ScreensaverManager)
  : option ScreensaverManager :=
  deactivate_fuel (S (List.length (screensaver_windows m))) now m.

Definition deactivate_screensaver (now : Z) (m : ScreensaverManager)
  : ScreensaverManager :=
  match deactivate_slot now m with
  | Some m' => m'
  | None => m
  end.

(** ** The screen-off command and the manual toggle *)

(** [power_error] is the text of the exception the call into
    [ctypes.windll.user32] raises, if it raises. *)
Definition _turn_off_screen (power_error : option string)
  (m : ScreensaverManager) : ScreensaverManager :=
  let m := emit (Log_info "Attempting to turn off screen...") m in
  match power_error with
  | None =>
      let m := emit SendMessageW_monitor_off m in
      emit (Log_info "Screen turn off signal sent.") m
  | Some e =>
      let m := emit (Log_error ("Failed to turn off screen: " ++ e)) m in
      emit (Emit_error_occurred ("Screen turn off error: " ++ e)) m
  end.

Definition toggle_screensaver (now : Z) (screens : list QScreen)
  (m : ScreensaverManager) : ScreensaverManager :=
  if is_active m then deactivate_screensaver now m
  else _activate_screensaver now screens m.

(** ** The poll cycle *)

Definition _poll_inactivity (now : Z) (d : Desktop) (screens : list QScreen)
  (m : ScreensaverManager) : ScreensaverManager :=
  let delay_minutes := delay_minutes (config m) in
  let delay_seconds := delay_minutes * 60 in
  let (user_active, m) := _user_is_active m in
  if user_active then
    let m := set_last_input_time now m in
    if negb (State_eqb (state m) IDLE) then _set_state IDLE m else m
  else
    let (video, m) := _is_video_playing d m in
    if video then _set_state WAITING m
    else if delay_seconds * ms_per_second <=? now - last_input_time m then
      if negb (State_eqb (state m) ACTIVE) then
        let m := _activate_screensaver now screens m in
        _set_state ACTIVE m
      else m
    else _set_state WAITING m.

(** ** Configuration updates and cleanup *)

(** The slot of [config_updated].  It does not use the dictionary the
    signal carries and reads the values through [config_manager.get]. *)
Definition _on_config_updated (now : Z) (m : ScreensaverManager)
  : ScreensaverManager :=
  let m := emit (Log_info "Configuration updated. Applying changes...") m in
  let interval := check_interval_seconds (config m) in
  let m := set_poll_timer
             (QTimer.setInterval now (interval * 1000) (poll_timer m)) m in
  let m :=
    if enable_auto_activation (config m) then
      if negb (QTimer.isActive (poll_timer m)) then start_monitoring now m
      else m
    else
      if QTimer.isActive (poll_timer m) then stop_monitoring m else m in
  if QTimer.isActive (screensaver_off_timer m) then
    let turn_off_delay := turn_off_screen_delay_minutes (config m) in
    if 0 <? turn_off_delay then
      set_off_timer (QTimer.start now (turn_off_delay * 60 * 1000)
                       (screensaver_off_timer m)) m
    else set_off_timer (QTimer.stop (screensaver_off_timer m)) m
  else m.

(** The two [disconnect] calls of [cleanup] share one [try]: disconnecting
    a slot that is not connected raises [TypeError], which skips what is
    left of the block. *)
Definition disconnect_slots (m : ScreensaverManager) : ScreensaverManager :=
  if config_updated_connected m then
    let m := set_connections false (off_timer_connected m) m in
    if off_timer_connected m then
      set_connections (config_updated_connected m) false m
    else m
  else m.

Definition cleanup (now : Z) (m : ScreensaverManager) : ScreensaverManager :=
  let m := emit (Log_info "Performing ScreensaverManager cleanup...") m in
  let m := stop_monitoring m in
  let m := deactivate_screensaver now m in
  let m := disconnect_slots m in
  emit (Log_info "ScreensaverManager cleanup complete.") m.

(** ** Construction *)

(** [_setup_input_listeners] leaves the flag cleared and both listener
    threads started; the two callbacks [on_mouse] and [on_keyboard] run
    on those threads. *)
Definition on_mouse (m : ScreensaverManager) : ScreensaverManager :=
  if alive (_mouse_listener m) then set_input_activity true m else m.

Definition on_keyboard (m : ScreensaverManager) : ScreensaverManager :=
  if alive (_keyboard_listener m) then set_input_activity true m else m.

(** [ScreensaverManager.__init__] at clock reading [now].
    [hotkey_error] is the text of the exception [keyboard.add_hotkey]
    raises, if it raises. *)
Definition __init__ (now : Z) (hotkey_error : option string) (cfg : Config)
  : ScreensaverManager :=
  let m :=
    {| config := cfg;
       state := IDLE;
       is_active := false;
       screensaver_windows := [];
       last_input_time := now;
       _last_polled_time := now;
       last_media_check := 0;
       media_active := false;
       poll_timer := QTimer.new;
       screensaver_off_timer := QTimer.setSingleShot true QTimer.new;
       hotkeys_bound :=
         match hotkey_error with None => true | Some _ => false end;
       config_updated_connected := true;
       off_timer_connected := true;
       _input_activity := false;
       _mouse_listener := {| alive := true |};
       _keyboard_listener := {| alive := true |};
       events :=
         match hotkey_error with
         | None => []
         | Some e => [Log_error ("Failed to setup global hotkeys: " ++ e)]
         end |} in
  if enable_auto_activation (config m) then start_monitoring now m else m.

(** ** The sibling monitor's stop path *)

Module InactivityMonitor.

Record t : Type :=
  { running : bool;
    mouse_listener : option Listener;
    keyboard_listener : option Listener;
    log : list Event }.

(** [if l and l.is_alive(): l.stop(); l.join(1)] *)
Definition stop_listener (l : option Listener) : option Listener :=
  match l with
  | Some l => if alive l then Some {| alive := false |} else Some l
  | None => None
  end.

Definition stop (x : t) : t :=
  {| running := false;
     mouse_listener := stop_listener (mouse_listener x);
     keyboard_listener := stop_listener (keyboard_listener x);
     log := log x ++ [Log_info "Inactivity monitor stopped"] |}.

End InactivityMonitor.

(** ** The event loop

    What can happen to a constructed manager, each with the clock reading
    at which it happens: a timeout of one of the two timers, the toggle
    (the hotkey ctrl+alt+s, the button of the main window), the
    emergency exit (the hotkey ctrl+alt+q), a
    key or mouse press on an overlay window, a global input event seen
    by a listener, a configuration update (the configuration manager
    stores [cfg], then emits [config_updated]), and cleanup.  A timeout
    happens only to a timer that is due. *)

Inductive Action : Type :=
| PollTimeout (now : Z) (d : Desktop) (screens : list QScreen)
| ToggleHotkey (now : Z) (screens : list QScreen)
| ExitHotkey (now : Z)
| OverlayInput (now : Z) (i : nat)
| MouseEvent
| KeyboardEvent
| ConfigUpdated (now : Z) (cfg : Config)
| OffTimerTimeout (now : Z) (power_error : option string)
| Cleanup (now : Z).

(** [keyPressEvent] or [mousePressEvent] of the [i]-th overlay window:
    [self.close()], on a window that is on screen. *)
Definition overlay_input (now : Z) (i : nat) (m : ScreensaverManager)
  : ScreensaverManager :=
  match nth_error (screensaver_windows m) i with
  | Some w =>
      if shown w then
        match close_window (deactivate_slot now) i m with
        | Some m' => m'
        | None => m
        end
      else m
  | None => m
  end.

Definition step (m : ScreensaverManager) (a : Action) : ScreensaverManager :=
  match a with
  | PollTimeout now d screens =>
      if QTimer.due now (poll_timer m) then
        let m := set_poll_timer (QTimer.fired now (poll_timer m)) m in
        _poll_inactivity now d screens m
      else m
  | ToggleHotkey now screens => toggle_screensaver now screens m
  | ExitHotkey now => deactivate_screensaver now m
  | OverlayInput now i => overlay_input now i m
  | MouseEvent => on_mouse m
  | KeyboardEvent => on_keyboard m
  | ConfigUpdated now cfg =>
      let m := set_config cfg m in
      if config_updated_connected m then _on_config_updated now m else m
  | OffTimerTimeout now power_error =>
      if QTimer.due now (screensaver_off_timer m) then
        let m := set_off_timer
                   (QTimer.fired now (screensaver_off_timer m)) m in
        if off_timer_connected m then _turn_off_screen power_error m else m
      else m
  | Cleanup now => cleanup now m
  end.

Definition run (acts : list Action) (m : ScreensaverManager)
  : ScreensaverManager :=
  fold_left step acts m.

Definition power_off_count (m : ScreensaverManager) : nat :=
  List.length (filter is_power_off (events m)).

(** ** Concrete surroundings used in the examples *)

Definition display (n : nat) : QScreen :=
  {| screen_id := n; surface_error := None |}.

Definition broken_display (n : nat) : QScreen :=
  {| screen_id := n; surface_error := Some "cannot create surface" |}.

(** A 1920x1080 desktop with an editor window and nothing else. *)
Definition quiet_desktop : Desktop :=
  {| top_level_windows :=
       inr [ {| owner_exe := Some "notepad.exe"; window_visible := true;
                window_rect := Some (0, 0, 1920, 1080) |} ];
     SM_CXSCREEN := 1920;
     SM_CYSCREEN := 1080 |}.

(** The same desktop with a player that leaves the task bar visible. *)
Definition video_desktop : Desktop :=
  {| top_level_windows :=
       inr [ {| owner_exe := Some "notepad.exe"; window_visible := true;
                window_rect := Some (100, 100, 900, 700) |};
             {| owner_exe := Some "VLC.exe"; window_visible := true;
                window_rect := Some (0, 0, 1920, 1040) |} ];
     SM_CXSCREEN := 1920;
     SM_CYSCREEN := 1080 |}.

(** A manager built at clock reading 0 with the default configuration. *)
Definition fresh_manager : ScreensaverManager :=
  __init__ 0 None default_config.

(** ** Auxiliary definitions for the proofs *)

(** The fields outside the session, the two timers and the event trace. *)
Definition outside_session (m : ScreensaverManager) :=
  (config m, state m, last_input_time m, _last_polled_time m,
   last_media_check m, media_active m, hotkeys_bound m,
   config_updated_connected m, off_timer_connected m, _input_activity m,
   _mouse_listener m, _keyboard_listener m).

Definition off_timer_idle (m : ScreensaverManager) : Prop :=
  QTimer.active (screensaver_off_timer m) = false.

(** A property of the manager that survives every assignment
    deactivation makes. *)
Record deactivation_stable (P : ScreensaverManager -> Prop) : Prop :=
  { stable_update_window : forall i f m, P m -> P (update_window i f m);
    stable_clear_windows : forall m, P m -> P (set_windows [] m);
    stable_is_active : forall m, P m -> P (set_is_active false m);
    stable_emit : forall e m, is_power_off e = false -> P m -> P (emit e m);
    stable_off_stop :
      forall m, P m -> P (set_off_timer (QTimer.stop (screensaver_off_timer m)) m);
    stable_poll_timer : forall t m, P m -> P (set_poll_timer t m) }.

(** Windows of the session that are not being closed. *)
Definition open_windows (m : ScreensaverManager) : nat :=
  List.length (filter (fun w => negb (is_closing w)) (screensaver_windows m)).

Definition display_ok (s : QScreen) : bool :=
  match surface_error s with None => true | Some _ => false end.

(** The windows a run of [create_windows] over [screens] appends. *)
Definition surfaces (screens : list QScreen) : list ScreensaverWindow :=
  map (fun s => showFullScreen (new_window s)) screens.

Definition is_poll (a : Action) : bool :=
  match a with PollTimeout _ _ _ => true | _ => false end.

(** A manager that waited through one poll cycle and then saw a mouse
    event. *)
Definition waiting_manager_with_input : ScreensaverManager :=
  run [PollTimeout 30000 quiet_desktop [display 0]; MouseEvent] fresh_manager.

(** ** Predicates on runs of the event loop *)

(** Every display the action enumerates accepts its window, and there is
    at least one display. *)
Definition displays_ok (a : Action) : bool :=
  match a with
  | PollTimeout _ _ screens | ToggleHotkey _ screens =>
      match screens with
      | [] => false
      | _ :: _ => forallb display_ok screens
      end
  | _ => true
  end.

(** Poll cycles, the manual toggle, the emergency exit and input on an
    overlay window. *)
Definition session_action (a : Action) : bool :=
  match a with
  | PollTimeout _ _ _ | ToggleHotkey _ _ | ExitHotkey _ | OverlayInput _ _ =>
      true
  | _ => false
  end.

(** The session list is inhabited exactly when the session flag is set. *)
Definition session_inv (m : ScreensaverManager) : Prop :=
  (is_active m = true -> screensaver_windows m <> [])
  /\ (is_active m = false -> screensaver_windows m = []).

(** The screen-off timer is armed only inside an active session. *)
Definition armed_inv (m : ScreensaverManager) : Prop :=
  is_active m = false -> off_timer_idle m.



(** The invariant as the data model words it, on the state field. *)
Definition session_iff_state_active (m : ScreensaverManager) : Prop :=
  screensaver_windows m <> [] <-> state m = ACTIVE.

(** Actions that cannot start a session. *)
Definition no_activation (a : Action) : bool :=
  match a with
  | PollTimeout _ _ _ | ToggleHotkey _ _ => false
  | _ => true
  end.

(** Timeouts of the poll timer, one period apart, the first one period
    after [t]; each cycle sees its own desktop and screens. *)
Fixpoint poll_cycles (t period : Z) (envs : list (Desktop * list QScreen))
  : list Action :=
  match envs with
  | [] => []
  | (d, screens) :: rest =>
      PollTimeout (t + period) d screens
      :: poll_cycles (t + period) period rest
  end.

(** Ten quiet poll cycles of the default configuration, then the
    emergency exit. *)
Definition ten_quiet_cycles : list Action :=
  poll_cycles 0 30000 (repeat (quiet_desktop, [display 0]) 10).

Definition activated_then_dismissed : ScreensaverManager :=
  run (ten_quiet_cycles ++ [ExitHotkey 301000]) fresh_manager.

(** The default configuration with the screen switched off after one
    minute of overlay. *)
Definition one_minute_off_config : Config :=
  {| delay_minutes := 5;
     check_interval_seconds := 30;
     enable_auto_activation := true;
     turn_off_screen_delay_minutes := 1 |}.



(** The failure semantics of activation as the overlay-session section
    words them, for a poll cycle that activates: a display whose window
    cannot be built is skipped and every other display still gets one;
    the session counts as active when a window exists, and otherwise the
    state goes back to [WAITING]. *)
Definition surface_failure_claim (now : Z) (d : Desktop)
  (screens : list QScreen) (m : ScreensaverManager) : Prop :=
  let m' := _poll_inactivity now d screens m in
  map screen (screensaver_windows m') = filter display_ok screens
  /\ (screensaver_windows m' <> [] ->
      is_active m' = true /\ state m' = ACTIVE)
  /\ (screensaver_windows m' = [] ->
      is_active m' = false /\ state m' = WAITING).

(** The configuration of the ten-cycle run: five minutes of delay, a poll
    every thirty seconds, any screen-off delay. *)
Definition five_minute_config (off : Z) : Config :=
  {| delay_minutes := 5;
     check_interval_seconds := 30;
     enable_auto_activation := true;
     turn_off_screen_delay_minutes := off |}.

(** No window of the desktop counts as a video, whatever the manager. *)
Definition no_video (d : Desktop) : Prop :=
  forall m, fst (_is_video_playing d m) = false.

(** The manager between two quiet poll cycles of the ten-cycle run:
    constructed at [t0], last polled (or constructed) at [t]. *)
Definition quiet_inv (t0 t : Z) (m : ScreensaverManager) : Prop :=
  delay_minutes (config m) = 5
  /\ last_input_time m = t0
  /\ _input_activity m = false
  /\ is_active m = false
  /\ screensaver_windows m = []
  /\ poll_timer m = QTimer.mk true 30000 false (t + 30000).



(** A manager of the default configuration whose session was started by
    the manual toggle on one display. *)
Definition manager_with_session : ScreensaverManager :=
  step fresh_manager (ToggleHotkey 1000 [display 0]).

(** ** Predicates for the further properties *)

(** A global input event, as a listener callback sees it. *)
Definition is_input (a : Action) : bool :=
  match a with
  | MouseEvent | KeyboardEvent => true
  | _ => false
  end.

(** A poll timeout on a desktop without video, at a clock reading by
    which the delay of [m0], counted from its last input, is over. *)
Definition late_quiet_poll (m0 : ScreensaverManager) (a : Action) : Prop :=
  match a with
  | PollTimeout now d _ =>
      no_video d
      /\ delay_minutes (config m0) * 60 * ms_per_second
         <= now - last_input_time m0
  | _ => False
  end.



(** The screen-off timer is a single-shot timer. *)
Definition off_single_shot (m : ScreensaverManager) : Prop :=
  QTimer.singleShot (screensaver_off_timer m) = true.

(** ** Foreground inspection: [_is_system_active] *)












(** The player window of [video_desktop]. *)
Definition player_window : HWND :=
  {| owner_exe := Some "VLC.exe"; window_visible := true;
     window_rect := Some (0, 0, 1920, 1040) |}.



(** ** The configuration manager ([src/core/config_manager.py])

    The configuration is a Python dictionary of dictionaries.
    [dict.copy] copies one level only, so the dictionary objects live in
    a heap and a dictionary holds references to its sub-dictionaries.
    The configuration file is part of the surroundings: what a method
    reads from it is an argument, a write is an event. *)

(** A value as [json.load] returns it; the fields of [JObj] are the
    items of the dictionary, in order. *)
Unset Elimination Schemes.

Inductive JSON : Type :=
| JNull
| JBool (b : bool)
| JInt (z : Z)
| JFloat (mantissa exponent : Z)
| JStr (s : string)
| JList (items : list JSON)
| JObj (fields : list (string * JSON)).

Set Elimination Schemes.

(** A Python value held by the configuration: a dictionary is a
    reference into the heap; the other values are immutable or, for a
    list, never looked into by the configuration manager. *)
Inductive PyVal : Type :=
| VNone
| VBool (b : bool)
| VInt (z : Z)
| VFloat (mantissa exponent : Z)
| VStr (s : string)
| VList (items : list JSON)
| VDict (ref : nat).

Definition Dict : Type := list (string * PyVal).

Definition Heap : Type := list Dict.

(** [d[key]], [None] for [KeyError]. *)
Fixpoint dict_get (d : Dict) (key : string) : option PyVal :=
  match d with
  | [] => None
  | (k, v) :: rest => if String.eqb k key then Some v else dict_get rest key
  end.

(** [d[key] = v]: an existing key keeps its place. *)
Fixpoint dict_set (d : Dict) (key : string) (v : PyVal) : Dict :=
  match d with
  | [] => [(key, v)]
  | (k, v0) :: rest =>
      if String.eqb k key then (k, v) :: rest
      else (k, v0) :: dict_set rest key v
  end.

Definition heap_dict (h : Heap) (ref : nat) : Dict := nth ref h [].

Definition heap_store (h : Heap) (ref : nat) (key : string) (v : PyVal)
  : Heap :=
  update_nth ref (fun d => dict_set d key v) h.

(** The Python object for a parsed JSON value: a new dictionary object
    for every JSON object, filled item by item. *)
Fixpoint alloc_json (j : JSON) (h : Heap) {struct j} : PyVal * Heap :=
  match j with
  | JNull => (VNone, h)
  | JBool b => (VBool b, h)
  | JInt z => (VInt z, h)
  | JFloat m e => (VFloat m e, h)
  | JStr s => (VStr s, h)
  | JList items => (VList items, h)
  | JObj fields =>
      let ref := List.length h in
      (VDict ref,
       (fix fill (fs : list (string * JSON)) (h : Heap) {struct fs} : Heap :=
          match fs with
          | [] => h
          | (key, value) :: rest =>
              let (v, h1) := alloc_json value h in
              fill rest (heap_store h1 ref key v)
          end) fields (h ++ [[]]))
  end.

(** [d.copy()]: a new dictionary object with the items of [d]. *)
Definition dict_copy (h : Heap) (ref : nat) : nat * Heap :=
  (List.length h, h ++ [heap_dict h ref]).

(** [key_path.split('.')]. *)
Fixpoint split_dots (s : string) : list string :=
  match s with
  | EmptyString => [EmptyString]
  | String c rest =>
      if Ascii.eqb c "."%char then EmptyString :: split_dots rest
      else
        match split_dots rest with
        | first :: others => String c first :: others
        | [] => [String c EmptyString]
        end
  end.

Inductive ConfigEvent : Type :=
| Config_info (msg : string)
| Config_error (msg : string)
| Write_config_file
| Emit_config_updated
| Emit_config_error (msg : string).

Record ConfigManager : Type :=
  { cm_heap : Heap;
    config_ref : nat;            (* self.config *)
    default_config_ref : nat;    (* self.default_config *)
    cm_events : list ConfigEvent }.

Definition cm_emit (e : ConfigEvent) (cm : ConfigManager) : ConfigManager :=
  {| cm_heap := cm_heap cm; config_ref := config_ref cm;
     default_config_ref := default_config_ref cm;
     cm_events := cm_events cm ++ [e] |}.

Definition cm_with_heap (h : Heap) (cm : ConfigManager) : ConfigManager :=
  {| cm_heap := h; config_ref := config_ref cm;
     default_config_ref := default_config_ref cm;
     cm_events := cm_events cm |}.

(** The loop of [get]: [value = value[key]] for every key; [None] is
    the [KeyError] of a missing key or the [TypeError] of subscripting
    a value that is no dictionary. *)
Fixpoint get_from (h : Heap) (value : PyVal) (keys : list string)
  : option PyVal :=
  match keys with
  | [] => Some value
  | key :: rest =>
      match value with
      | VDict ref =>
          match dict_get (heap_dict h ref) key with
          | Some v => get_from h v rest
          | None => None
          end
      | _ => None
      end
  end.

Definition get (cm : ConfigManager) (key_path : string) (default : PyVal)
  : PyVal :=
  match get_from (cm_heap cm) (VDict (config_ref cm)) (split_dots key_path) with
  | Some value => value
  | None => default
  end.

(** [save_config]; [write_error] is the text of the exception opening
    or writing the file raises, if it raises. *)
Definition save_config (write_error : option string) (cm : ConfigManager)
  : ConfigManager :=
  match write_error with
  | None =>
      cm_emit (Config_info "Configuration saved successfully")
        (cm_emit Write_config_file cm)
  | Some e =>
      cm_emit (Emit_config_error ("Configuration save error: " ++ e))
        (cm_emit (Config_error ("Failed to save configuration: " ++ e)) cm)
  end.

(** The loop of [set] over [keys[:-1]]: a missing key gets a new empty
    dictionary; the second component is [None] when a step raises
    [TypeError] on a value that is no dictionary. *)
Fixpoint set_walk (h : Heap) (config : PyVal) (keys : list string)
  : Heap * option PyVal :=
  match keys with
  | [] => (h, Some config)
  | key :: rest =>
      match config with
      | VDict ref =>
          match dict_get (heap_dict h ref) key with
          | Some v => set_walk h v rest
          | None =>
              let fresh := List.length h in
              set_walk (heap_store (h ++ [[]]) ref key (VDict fresh))
                (VDict fresh) rest
          end
      | _ => (h, None)
      end
  end.

(** [set].  The text of the [TypeError] is left out of the two error
    messages. *)
Definition set (write_error : option string) (key_path : string)
  (value : JSON) (cm : ConfigManager) : ConfigManager :=
  let keys := split_dots key_path in
  match set_walk (cm_heap cm) (VDict (config_ref cm)) (removelast keys) with
  | (h, Some (VDict ref)) =>
      let (v, h) := alloc_json value h in
      let cm := cm_with_heap (heap_store h ref (last keys EmptyString) v) cm in
      let cm := save_config write_error cm in
      cm_emit Emit_config_updated cm
  | (h, _) =>
      let cm := cm_with_heap h cm in
      let cm := cm_emit (Config_error ("Failed to set configuration "
                                       ++ key_path)) cm in
      cm_emit (Emit_config_error "Configuration set error") cm
  end.


(** The inner [merge_dicts] of [_merge_config], on the items of
    [update]. *)
Fixpoint merge_dicts (h : Heap) (base : nat) (update : JSON) {struct update}
  : Heap :=
  match update with
  | JObj fields =>
      (fix items (fs : list (string * JSON)) (h : Heap) {struct fs} : Heap :=
         match fs with
         | [] => h
         | (key, value) :: rest =>
             let h' :=
               match dict_get (heap_dict h base) key, value with
               | Some (VDict sub), JObj _ => merge_dicts h sub value
               | _, _ =>
                   let (v, h1) := alloc_json value h in
                   heap_store h1 base key v
               end in
             items rest h'
         end) fields h
  | _ => h
  end.

(** [load_config]; [file] is [None] when the file does not exist,
    [inl e] when reading or parsing it raises [e], else the parsed
    value.  A parsed value that is no dictionary has no [items]. *)
Definition load_config (file : option (string + JSON))
  (write_error : option string) (cm : ConfigManager) : ConfigManager :=
  match file with
  | Some (inr (JObj fields)) =>
      let cm := cm_with_heap
                  (merge_dicts (cm_heap cm) (config_ref cm) (JObj fields)) cm in
      cm_emit (Config_info "Configuration loaded successfully") cm
  | Some (inr _) =>
      let e := "object has no attribute 'items'" in
      cm_emit (Emit_config_error ("Configuration load error: " ++ e))
        (cm_emit (Config_error ("Failed to load configuration: " ++ e)) cm)
  | Some (inl e) =>
      cm_emit (Emit_config_error ("Configuration load error: " ++ e))
        (cm_emit (Config_error ("Failed to load configuration: " ++ e)) cm)
  | None =>
      cm_emit (Config_info "Default configuration created")
        (save_config write_error cm)
  end.

Definition default_config_json : JSON :=
  JObj
    [ ("activation",
       JObj [ ("delay_minutes", JInt 5);
              ("check_interval_seconds", JInt 30);
              ("enable_auto_activation", JBool true) ]);
      ("display",
       JObj [ ("theme", JStr "dark");
              ("time_format", JStr "24h");
              ("date_format", JStr "full");
              ("font_size", JInt 72);
              ("font_family", JStr "Segoe UI");
              ("font_style", JStr "normal");
              ("opacity", JFloat 9 (-1));
              ("show_seconds", JBool true);
              ("show_date", JBool true);
              ("show_weather", JBool false);
              ("animated_emoji",
               JObj [ ("enabled", JBool false);
                      ("emoji", JStr "âœ¨");
                      ("size", JInt 48);
                      ("animation_speed", JInt 5) ]);
              ("show_todo", JBool true) ]);
      ("system",
       JObj [ ("startup_enabled", JBool false);
              ("system_tray_enabled", JBool true);
              ("multi_monitor", JBool true);
              ("low_power_mode", JBool true) ]);
      ("weather",
       JObj [ ("api_key", JStr "");
              ("location", JStr "");
              ("units", JStr "metric") ]) ].

(** [ConfigManager.__init__]; creating the configuration directory
    leaves no trace in this state unless it fails. *)
Definition new_config_manager (mkdir_error : option string)
  (file : option (string + JSON)) (write_error : option string)
  : ConfigManager :=
  let (dflt, h) := alloc_json default_config_json [] in
  let dref := match dflt with VDict ref => ref | _ => 0%nat end in
  let (cref, h) := dict_copy h dref in
  let cm := {| cm_heap := h; config_ref := cref; default_config_ref := dref;
               cm_events :=
                 match mkdir_error with
                 | None => []
                 | Some e =>
                     [Config_error ("Failed to create config directory: " ++ e)]
                 end |} in
  load_config file write_error cm.

(** The heap is acyclic: every stored reference is in the heap and
    points to a dictionary of smaller rank. *)
Definition ranked (r : nat -> Z) (h : Heap) : Prop :=
  forall ref key sub,
    (ref < List.length h)%nat ->
    dict_get (heap_dict h ref) key = Some (VDict sub) ->
    (sub < List.length h)%nat /\ r sub < r ref.







(** A configuration manager built without configuration file, and ranks
    that witness that its heap is acyclic. *)
Definition fresh_config_manager : ConfigManager :=
  new_config_manager None None None.


(** What [window.close()] leaves of an overlay window that was on
    screen: hidden, its redraw timer stopped. *)
Definition closed_window (w : ScreensaverWindow) : ScreensaverWindow :=
  {| screen := screen w; shown := false; update_timer_active := false;
     is_closing := false |}.

(** A manager whose activation failed on its second display: the window
    of the first display is on screen, no session is active. *)
Definition manager_after_failed_activation : ScreensaverManager :=
  step fresh_manager (ToggleHotkey 1000 [display 0; broken_display 1]).

(** * Properties *)

(** ** What deactivation leaves alone *)

Section Stable.

Variable P : ScreensaverManager -> Prop.
Hypothesis HP : deactivation_stable P.

Lemma update_window_stable i f m : P m -> P (update_window i f m).
Proof. now apply stable_update_window. Qed.

Lemma start_monitoring_stable now m : P m -> P (start_monitoring now m).
Proof.
  intros H. unfold start_monitoring.
  apply stable_emit; [assumption | reflexivity |].
  now apply stable_poll_timer.
Qed.

Lemma stop_monitoring_stable m : P m -> P (stop_monitoring m).
Proof.
  intros H. unfold stop_monitoring.
  apply stable_emit; [assumption | reflexivity |].
  now apply stable_poll_timer.
Qed.

Lemma close_window_stable slot :
  (forall m m', P m -> slot m = Some m' -> P m') ->
  forall i m m', P m -> close_window slot i m = Some m' -> P m'.
Proof.
  intros Hslot i m m' Hm. unfold close_window, closeEvent.
  destruct (nth_error (screensaver_windows m) i) as [w|].
  - destruct (is_closing w).
    + intros [= <-]. assumption.
    + destruct (slot _) as [m1|] eqn:E; [|discriminate].
      intros [= <-]. apply update_window_stable.
      eapply Hslot; [|exact E].
      now do 2 apply update_window_stable.
  - intros [= <-]. assumption.
Qed.

Lemma close_all_stable slot :
  (forall m m', P m -> slot m = Some m' -> P m') ->
  forall steps i m m', P m -> close_all slot steps i m = Some m' -> P m'.
Proof.
  intros Hslot steps.
  induction steps as [|steps IH]; intros i m m' Hm; simpl.
  - intros [= <-]. assumption.
  - destruct (nth_error (screensaver_windows m) i).
    + destruct (close_window slot i m) as [m1|] eqn:E; [|discriminate].
      apply IH. eapply close_window_stable; eauto.
    + intros [= <-]. assumption.
Qed.

Lemma deactivate_fuel_stable now fuel :
  forall m m', P m -> deactivate_fuel fuel now m = Some m' -> P m'.
Proof.
  induction fuel as [|fuel IH]; intros m m' Hm; cbn [deactivate_fuel];
    [discriminate|].
  destruct (is_active m); cbn [negb].
  - match goal with
    | |- context [close_all ?s ?n ?i ?x] =>
        destruct (close_all s n i x) as [m2|] eqn:E; [|discriminate];
        assert (H2 : P m2)
    end.
    { eapply close_all_stable; [exact IH| |exact E].
      destruct (QTimer.isActive _).
      - apply stable_emit; [assumption|reflexivity|].
        apply stable_off_stop; [assumption|].
        now apply stable_emit.
      - now apply stable_emit. }
    assert (H3 : P (emit Emit_screensaver_deactivated
                      (set_is_active false (set_windows [] m2)))).
    { apply stable_emit; [assumption|reflexivity|].
      now apply stable_is_active, stable_clear_windows. }
    destruct (enable_auto_activation _); intros [= <-].
    + now apply start_monitoring_stable.
    + assumption.
  - intros [= <-]. assumption.
Qed.

End Stable.

Lemma stable_outside_session c :
  deactivation_stable (fun m => outside_session m = c).
Proof. constructor; intros; assumption. Qed.

Lemma stable_off_timer_idle : deactivation_stable off_timer_idle.
Proof. constructor; unfold off_timer_idle; intros; auto. Qed.

Lemma stable_inactive :
  deactivation_stable (fun m => is_active m = false).
Proof. constructor; intros; auto. Qed.

Lemma update_nth_nil {A} i (f : A -> A) : update_nth i f [] = [].
Proof. reflexivity. Qed.

Lemma stable_no_windows :
  deactivation_stable (fun m => screensaver_windows m = []).
Proof.
  constructor; intros; auto.
  unfold update_window. cbn. now rewrite H.
Qed.

Lemma filter_app_one {A} (f : A -> bool) l x :
  f x = false -> filter f (l ++ [x]) = filter f l.
Proof.
  intros H. rewrite filter_app. simpl. rewrite H. apply app_nil_r.
Qed.

Lemma stable_power_off_count n :
  deactivation_stable (fun m => power_off_count m = n).
Proof.
  constructor; intros; try assumption.
  unfold power_off_count in *. simpl. now rewrite filter_app_one.
Qed.

(** ** Deactivation runs to completion *)

Lemma deactivate_fuel_inactive now fuel m :
  is_active m = false -> deactivate_fuel (S fuel) now m = Some m.
Proof. intros H. cbn [deactivate_fuel]. now rewrite H. Qed.

(** What a completed deactivation of an active session establishes. *)
Lemma deactivate_fuel_post now fuel m m' :
  deactivate_fuel fuel now m = Some m' ->
  is_active m = true ->
  is_active m' = false /\ screensaver_windows m' = [] /\ off_timer_idle m'.
Proof.
  destruct fuel as [|fuel]; cbn [deactivate_fuel]; [discriminate|].
  intros H Hact. rewrite Hact in H. cbn [negb] in H.
  match type of H with
  | context [close_all ?s ?n ?i ?x] =>
      destruct (close_all s n i x) as [m2|] eqn:E; [|discriminate];
      assert (H2 : off_timer_idle m2)
  end.
  { eapply (close_all_stable _ stable_off_timer_idle); [| |exact E].
    - intros a b Ha Hb.
      eapply (deactivate_fuel_stable _ stable_off_timer_idle); eauto.
    - destruct (QTimer.isActive _) eqn:Eo.
      + reflexivity.
      + exact Eo. }
  destruct (enable_auto_activation _); injection H as <-;
    repeat split; assumption.
Qed.

Lemma open_windows_le_length m :
  (open_windows m <= List.length (screensaver_windows m))%nat.
Proof. apply filter_length_le. Qed.

Lemma update_nth_begin_close l : forall i w,
  nth_error l i = Some w -> is_closing w = false ->
  S (List.length (filter (fun w => negb (is_closing w))
                    (update_nth i begin_close l)))
  = List.length (filter (fun w => negb (is_closing w)) l).
Proof.
  induction l as [|x l IH]; intros [|i] w; simpl; try discriminate.
  - intros [= ->] ->. reflexivity.
  - intros Hn Hw. destruct (negb (is_closing x)); simpl;
      now rewrite (IH _ _ Hn Hw).
Qed.

Lemma update_nth_stop_update_timer l : forall i,
  List.length (filter (fun w => negb (is_closing w))
                 (update_nth i stop_update_timer l))
  = List.length (filter (fun w => negb (is_closing w)) l).
Proof.
  induction l as [|x l IH]; intros [|i]; simpl; try reflexivity.
  - destruct (negb (is_closing x)); reflexivity.
  - destruct (negb (is_closing x)); simpl; now rewrite IH.
Qed.

Lemma open_windows_begin_close m i w :
  nth_error (screensaver_windows m) i = Some w -> is_closing w = false ->
  (open_windows (update_window i stop_update_timer
                   (update_window i begin_close m)) < open_windows m)%nat.
Proof.
  intros Hn Hw. unfold open_windows. simpl.
  rewrite <- (update_nth_begin_close _ _ _ Hn Hw).
  rewrite update_nth_stop_update_timer. lia.
Qed.

Lemma close_all_total slot : forall steps i m,
  is_active m = true ->
  (forall m1, is_active m1 = true ->
              (open_windows m1 < open_windows m)%nat ->
              exists m2, slot m1 = Some m2 /\ screensaver_windows m2 = []) ->
  exists m', close_all slot steps i m = Some m'.
Proof.
  induction steps as [|steps IH]; intros i m Hact Hslot; simpl.
  - eauto.
  - destruct (nth_error (screensaver_windows m) i) as [w|] eqn:En; [|eauto].
    unfold close_window. rewrite En.
    destruct (is_closing w) eqn:Ew.
    + now apply IH.
    + unfold closeEvent.
      destruct (Hslot (update_window i stop_update_timer
                         (update_window i begin_close m))) as (m2 & E2 & W2).
      * exact Hact.
      * now apply (open_windows_begin_close m i w).
      * rewrite E2. destruct steps as [|steps]; simpl; [eauto|].
        rewrite W2. simpl. eauto.
Qed.

Lemma deactivate_fuel_total now : forall fuel m,
  (open_windows m < fuel)%nat ->
  exists m', deactivate_fuel fuel now m = Some m'.
Proof.
  induction fuel as [|fuel IH]; intros m Hlt; [lia|].
  cbn [deactivate_fuel].
  destruct (is_active m) eqn:Hact; cbn [negb]; [|eauto].
  match goal with
  | |- context [close_all ?s ?n ?i ?x] =>
      destruct (close_all_total s n i x) as (m2 & E)
  end.
  - destruct (QTimer.isActive _); exact Hact.
  - intros m1 H1 Hlt1.
    destruct (IH m1) as (m2 & E2).
    + assert (open_windows
                (if QTimer.isActive
                      (screensaver_off_timer
                         (emit (Log_info "Deactivating screensaver...") m))
                 then emit (Log_info "Screen off timer stopped")
                        (set_off_timer
                           (QTimer.stop
                              (screensaver_off_timer
                                 (emit (Log_info "Deactivating screensaver...") m)))
                           (emit (Log_info "Deactivating screensaver...") m))
                 else emit (Log_info "Deactivating screensaver...") m)
              = open_windows m) as Heq
        by (destruct (QTimer.isActive _); reflexivity).
      rewrite Heq in Hlt1. lia.
    + exists m2. split; [exact E2|].
      now apply (deactivate_fuel_post now fuel m1 m2 E2 H1).
  - rewrite E. destruct (enable_auto_activation _); eauto.
Qed.

Lemma deactivate_slot_total now m :
  exists m', deactivate_slot now m = Some m'.
Proof.
  apply deactivate_fuel_total. pose proof (open_windows_le_length m). lia.
Qed.

(** The same facts for [deactivate_screensaver]. *)

Lemma deactivate_inactive now m :
  is_active m = false -> deactivate_screensaver now m = m.
Proof.
  intros H. unfold deactivate_screensaver, deactivate_slot.
  now rewrite deactivate_fuel_inactive.
Qed.

Lemma deactivate_active now m :
  is_active m = true ->
  is_active (deactivate_screensaver now m) = false
  /\ screensaver_windows (deactivate_screensaver now m) = []
  /\ off_timer_idle (deactivate_screensaver now m).
Proof.
  intros H. unfold deactivate_screensaver.
  destruct (deactivate_slot_total now m) as (m' & E). rewrite E.
  exact (deactivate_fuel_post _ _ _ _ E H).
Qed.

Lemma deactivate_stable P now m :
  deactivation_stable P -> P m -> P (deactivate_screensaver now m).
Proof.
  intros HP Hm. unfold deactivate_screensaver.
  destruct (deactivate_slot now m) as [m'|] eqn:E; [|assumption].
  exact (deactivate_fuel_stable P HP _ _ _ _ Hm E).
Qed.

Lemma deactivate_outside_session now m :
  outside_session (deactivate_screensaver now m) = outside_session m.
Proof. now apply (deactivate_stable _ _ _ (stable_outside_session _)). Qed.

(** ** The state field *)

Lemma State_eqb_eq a b : State_eqb a b = true <-> a = b.
Proof. destruct a, b; simpl; split; congruence. Qed.

Lemma _set_state_state s m : state (_set_state s m) = s.
Proof.
  unfold _set_state. destruct (State_eqb (state m) s) eqn:E; simpl.
  - now apply State_eqb_eq.
  - reflexivity.
Qed.

(** [_set_state] writes the state field and may add one log line. *)
Lemma _set_state_frame s m :
  last_input_time (_set_state s m) = last_input_time m
  /\ is_active (_set_state s m) = is_active m
  /\ screensaver_windows (_set_state s m) = screensaver_windows m
  /\ poll_timer (_set_state s m) = poll_timer m
  /\ screensaver_off_timer (_set_state s m) = screensaver_off_timer m
  /\ _input_activity (_set_state s m) = _input_activity m
  /\ filter is_signal (events (_set_state s m)) = filter is_signal (events m)
  /\ power_off_count (_set_state s m) = power_off_count m.
Proof.
  unfold _set_state, power_off_count.
  destruct (State_eqb (state m) s); simpl; repeat split;
    now rewrite filter_app_one.
Qed.

(** ** Activation, display by display *)

Lemma surfaces_screen screens : map screen (surfaces screens) = screens.
Proof.
  unfold surfaces. rewrite map_map. simpl. apply map_id.
Qed.

Lemma set_windows_same m : set_windows (screensaver_windows m) m = m.
Proof. destruct m; reflexivity. Qed.

Lemma create_windows_app pre : forall rest m,
  forallb display_ok pre = true ->
  create_windows (pre ++ rest) m
  = create_windows rest
      (set_windows (screensaver_windows m ++ surfaces pre) m).
Proof.
  induction pre as [|s pre IH]; intros rest m Hok; simpl.
  - now rewrite app_nil_r, set_windows_same.
  - simpl in Hok. apply andb_prop in Hok as [Hs Hpre].
    unfold display_ok in Hs. destruct (surface_error s); [discriminate|].
    rewrite IH by assumption. simpl. now rewrite <- app_assoc.
Qed.

Lemma create_windows_ok screens m :
  forallb display_ok screens = true ->
  create_windows screens m
  = Returned (set_windows (screensaver_windows m ++ surfaces screens) m).
Proof.
  intros Hok. rewrite <- (app_nil_r screens) at 1.
  now rewrite create_windows_app.
Qed.

Lemma create_windows_fails pre s e post m :
  forallb display_ok pre = true -> surface_error s = Some e ->
  create_windows (pre ++ s :: post) m
  = Raised e (set_windows (screensaver_windows m ++ surfaces pre) m).
Proof.
  intros Hok He. rewrite create_windows_app by assumption.
  simpl. now rewrite He.
Qed.

(** Every run of [create_windows] is one of the two above. *)
Lemma create_windows_cases screens m :
  (exists ws, create_windows screens m
              = Returned (set_windows (screensaver_windows m ++ ws) m)
              /\ (screens <> [] -> forallb display_ok screens = true ->
                  screensaver_windows m ++ ws <> []))
  \/ (exists e ws, create_windows screens m
                   = Raised e (set_windows (screensaver_windows m ++ ws) m)).
Proof.
  revert m. induction screens as [|s screens IH]; intros m; simpl.
  - left. exists []. split.
    + now rewrite app_nil_r, set_windows_same.
    + intros H. now elim H.
  - destruct (surface_error s) as [e|] eqn:Es.
    + right. exists e, []. now rewrite app_nil_r, set_windows_same.
    + destruct (IH (set_windows
                      (screensaver_windows m ++ [showFullScreen (new_window s)])
                      m)) as [(ws & E & _)|(e & ws & E)]; rewrite E; simpl.
      * left. exists (showFullScreen (new_window s) :: ws).
        rewrite <- app_assoc. split; [reflexivity|].
        intros _ _ H. apply app_eq_nil in H as [_ H]. discriminate.
      * right. exists e, (showFullScreen (new_window s) :: ws).
        now rewrite <- app_assoc.
Qed.

Lemma outside_session_fields a b :
  outside_session a = outside_session b ->
  config a = config b /\ state a = state b
  /\ last_input_time a = last_input_time b
  /\ _input_activity a = _input_activity b
  /\ _mouse_listener a = _mouse_listener b
  /\ _keyboard_listener a = _keyboard_listener b
  /\ config_updated_connected a = config_updated_connected b
  /\ off_timer_connected a = off_timer_connected b.
Proof.
  unfold outside_session. intros H. injection H as H1 H2 H3 H4 H5 H6.
  intros. repeat split; assumption.
Qed.

(** Activation writes the session, the two timers and the trace only,
    and sends no power command. *)
Lemma activate_outside_session now screens m :
  outside_session (_activate_screensaver now screens m) = outside_session m
  /\ power_off_count (_activate_screensaver now screens m) = power_off_count m.
Proof.
  unfold _activate_screensaver. destruct (is_active m); [now split|].
  destruct (create_windows_cases screens
              (emit (Log_info "Activating screensaver...") m))
    as [(ws & E & _)|(e & ws & E)]; rewrite E; clear E.
  - simpl. destruct (0 <? _); unfold power_off_count; simpl; split;
      try reflexivity; now rewrite !filter_app_one.
  - unfold power_off_count; simpl; split;
      try reflexivity; now rewrite !filter_app_one.
Qed.

Lemma overlay_input_stable P now i m :
  deactivation_stable P -> P m -> P (overlay_input now i m).
Proof.
  intros HP Hm. unfold overlay_input.
  destruct (nth_error (screensaver_windows m) i) as [w|]; [|assumption].
  destruct (shown w); [|assumption].
  destruct (close_window (deactivate_slot now) i m) as [m'|] eqn:E;
    [|assumption].
  eapply (close_window_stable P HP); [| exact Hm | exact E].
  intros a b Ha Hb. exact (deactivate_fuel_stable P HP _ _ _ _ Ha Hb).
Qed.

(** Only a poll cycle writes the state field. *)
Lemma step_keeps_state m a :
  is_poll a = false -> state (step m a) = state m.
Proof.
  destruct a as [now d screens|now screens|now|now i| | |now cfg
                |now perr|now]; simpl; intros H; try discriminate.
  - unfold toggle_screensaver. destruct (is_active m).
    + apply (outside_session_fields _ _ (deactivate_outside_session now m)).
    + apply (outside_session_fields _ _
               (proj1 (activate_outside_session now screens m))).
  - apply (outside_session_fields _ _ (deactivate_outside_session now m)).
  - apply (outside_session_fields (overlay_input now i m) m).
    now apply (overlay_input_stable _ _ _ _ (stable_outside_session _)).
  - unfold on_mouse. now destruct (alive _).
  - unfold on_keyboard. now destruct (alive _).
  - destruct (config_updated_connected m); [|reflexivity].
    unfold _on_config_updated. simpl.
    repeat match goal with
           | |- context [if ?c then _ else _] => destruct c; simpl
           end; reflexivity.
  - destruct (QTimer.due now _); [|reflexivity]. simpl.
    destruct (off_timer_connected m); [|reflexivity].
    unfold _turn_off_screen. now destruct perr.
  - unfold cleanup. cbn [emit state].
    transitivity (state (deactivate_screensaver now
                    (stop_monitoring
                       (emit (Log_info "Performing ScreensaverManager cleanup...")
                          m)))).
    + unfold disconnect_slots.
      destruct (config_updated_connected _); [|reflexivity].
      cbn. destruct (off_timer_connected _); reflexivity.
    + now rewrite (proj1 (proj2 (outside_session_fields _ _
                     (deactivate_outside_session now _)))).
Qed.

Lemma run_keeps_state acts : forall m,
  forallb (fun a => negb (is_poll a)) acts = true ->
  state (run acts m) = state m.
Proof.
  induction acts as [|a acts IH]; intros m H; simpl; [reflexivity|].
  simpl in H. apply andb_prop in H as [Ha Hacts].
  unfold run in IH. rewrite IH by assumption.
  apply step_keeps_state. now destruct (is_poll a).
Qed.

(** ** Poll cycles that consume activity *)

Lemma poll_activity_unfold now d screens m :
  _input_activity m = true ->
  _poll_inactivity now d screens m
  = (if negb (State_eqb (state m) IDLE)
     then _set_state IDLE
            (set_last_input_time now (set_input_activity false m))
     else set_last_input_time now (set_input_activity false m)).
Proof.
  intros H. unfold _poll_inactivity, _user_is_active. now rewrite H.
Qed.

Lemma poll_activity_state now d screens m :
  _input_activity m = true ->
  state (_poll_inactivity now d screens m) = IDLE.
Proof.
  intros H. rewrite poll_activity_unfold by assumption.
  destruct (State_eqb (state m) IDLE) eqn:Es; cbn [negb].
  - now apply State_eqb_eq.
  - apply _set_state_state.
Qed.

(** ** Case analyses of the operations *)

Lemma activate_when_active now screens m :
  is_active m = true -> _activate_screensaver now screens m = m.
Proof. intros H. unfold _activate_screensaver. now rewrite H. Qed.

(** A successful activation. *)
Lemma activate_ok now screens m :
  is_active m = false -> forallb display_ok screens = true ->
  is_active (_activate_screensaver now screens m) = true
  /\ screensaver_windows (_activate_screensaver now screens m)
     = screensaver_windows m ++ surfaces screens
  /\ QTimer.active (poll_timer (_activate_screensaver now screens m)) = false.
Proof.
  intros H Hok. unfold _activate_screensaver. rewrite H.
  rewrite create_windows_ok by assumption. cbn.
  destruct (0 <? _); now repeat split.
Qed.

(** An activation that one display fails. *)
Lemma activate_fails now pre s e post m :
  is_active m = false ->
  forallb display_ok pre = true -> surface_error s = Some e ->
  _activate_screensaver now (pre ++ s :: post) m
  = emit (Emit_error_occurred ("Screensaver activation error: " ++ e))
      (emit (Log_error ("Failed to activate screensaver: " ++ e))
         (set_windows (screensaver_windows m ++ surfaces pre)
            (emit (Log_info "Activating screensaver...") m))).
Proof.
  intros H Hok He. unfold _activate_screensaver. rewrite H.
  now rewrite (create_windows_fails pre s e post) by assumption.
Qed.

(** Whatever the displays do, activation either sets the session flag or
    leaves flag and screen-off timer as they were. *)
Lemma activate_cases now screens m :
  is_active (_activate_screensaver now screens m) = true
  \/ (is_active (_activate_screensaver now screens m) = is_active m
      /\ screensaver_off_timer (_activate_screensaver now screens m)
         = screensaver_off_timer m).
Proof.
  unfold _activate_screensaver. destruct (is_active m) eqn:H; [now left|].
  destruct (create_windows_cases screens
              (emit (Log_info "Activating screensaver...") m))
    as [(ws & E & _)|(e & ws & E)]; rewrite E; clear E.
  - left. cbn. now destruct (0 <? _).
  - right. cbn. now split.
Qed.

(** The manager a poll cycle works on after it read the flag and looked
    at the desktop, and what it then does with it. *)
Lemma poll_cases now d screens m :
  exists m1,
    is_active m1 = is_active m
    /\ screensaver_windows m1 = screensaver_windows m
    /\ screensaver_off_timer m1 = screensaver_off_timer m
    /\ poll_timer m1 = poll_timer m
    /\ power_off_count m1 = power_off_count m
    /\ (_poll_inactivity now d screens m = m1
        \/ (exists s, _poll_inactivity now d screens m = _set_state s m1)
        \/ _poll_inactivity now d screens m
           = _set_state ACTIVE (_activate_screensaver now screens m1)).
Proof.
  unfold _poll_inactivity, _user_is_active.
  destruct (_input_activity m).
  - exists (set_last_input_time now (set_input_activity false m)).
    repeat split. destruct (negb _); [right; left; eauto | now left].
  - unfold _is_video_playing.
    destruct (top_level_windows d) as [e|hwnds].
    + exists (emit (Log_error ("Error in video detection: " ++ e)) m).
      repeat split.
      * unfold power_off_count. cbn. now rewrite filter_app_one.
      * cbn [fst snd]. cbv iota.
        destruct (_ <=? _); [|right; left; eauto].
        destruct (negb _); [now right; right | now left].
    + exists m. repeat split.
      destruct (existsb _ _); [right; left; eauto|].
      destruct (_ <=? _); [|right; left; eauto].
      destruct (negb _); [now right; right | now left].
Qed.

(** Input on an overlay window of an active session either finds nothing
    to close or ends the session. *)
Lemma overlay_input_active now i m :
  is_active m = true ->
  overlay_input now i m = m
  \/ (is_active (overlay_input now i m) = false
      /\ screensaver_windows (overlay_input now i m) = []
      /\ off_timer_idle (overlay_input now i m)).
Proof.
  intros H. unfold overlay_input.
  destruct (nth_error (screensaver_windows m) i) as [w|] eqn:En; [|now left].
  destruct (shown w); [|now left].
  unfold close_window. rewrite En.
  destruct (is_closing w); [now left|].
  unfold closeEvent.
  match goal with
  | |- context [deactivate_slot now ?x] =>
      destruct (deactivate_slot_total now x) as (m2 & E); rewrite E;
      destruct (deactivate_fuel_post _ _ x m2 E H) as (A & B & C)
  end.
  right. unfold update_window. cbn. rewrite B. now repeat split.
Qed.

Lemma config_updated_frame now m :
  is_active (_on_config_updated now m) = is_active m
  /\ screensaver_windows (_on_config_updated now m) = screensaver_windows m
  /\ power_off_count (_on_config_updated now m) = power_off_count m
  /\ (QTimer.active (screensaver_off_timer (_on_config_updated now m)) = true ->
      QTimer.active (screensaver_off_timer m) = true).
Proof.
  unfold _on_config_updated, power_off_count, start_monitoring,
    stop_monitoring, QTimer.isActive.
  cbn.
  destruct (enable_auto_activation (config m));
    destruct (QTimer.active (poll_timer m));
    destruct (QTimer.active (screensaver_off_timer m)) eqn:Eo; cbn;
    rewrite ?Eo; try destruct (0 <? _); cbn;
    rewrite ?filter_app_one by reflexivity; repeat split; congruence.
Qed.

Lemma disconnect_slots_frame m :
  is_active (disconnect_slots m) = is_active m
  /\ screensaver_windows (disconnect_slots m) = screensaver_windows m
  /\ screensaver_off_timer (disconnect_slots m) = screensaver_off_timer m
  /\ poll_timer (disconnect_slots m) = poll_timer m
  /\ events (disconnect_slots m) = events m
  /\ _mouse_listener (disconnect_slots m) = _mouse_listener m
  /\ _keyboard_listener (disconnect_slots m) = _keyboard_listener m.
Proof.
  unfold disconnect_slots.
  destruct (config_updated_connected m); [|now repeat split].
  cbn. destruct (off_timer_connected m); now repeat split.
Qed.

(** ** Two invariants of the event loop *)

Lemma session_inv_transfer m m' :
  is_active m' = is_active m ->
  screensaver_windows m' = screensaver_windows m ->
  session_inv m -> session_inv m'.
Proof. unfold session_inv. intros -> ->. auto. Qed.

Lemma armed_inv_transfer m m' :
  is_active m' = is_active m ->
  screensaver_off_timer m' = screensaver_off_timer m ->
  armed_inv m -> armed_inv m'.
Proof. unfold armed_inv, off_timer_idle. intros -> ->. auto. Qed.

Lemma _set_state_session_inv s m : session_inv m -> session_inv (_set_state s m).
Proof.
  destruct (_set_state_frame s m) as (_ & A & B & _).
  now apply session_inv_transfer.
Qed.

Lemma _set_state_armed_inv s m : armed_inv m -> armed_inv (_set_state s m).
Proof.
  destruct (_set_state_frame s m) as (_ & A & _ & _ & B & _).
  now apply armed_inv_transfer.
Qed.

Lemma activate_session_inv now screens m :
  screens <> [] -> forallb display_ok screens = true ->
  session_inv m -> session_inv (_activate_screensaver now screens m).
Proof.
  intros Hne Hok Hm. destruct (is_active m) eqn:H.
  - now rewrite activate_when_active.
  - destruct (activate_ok now screens m H Hok) as (A & B & _).
    split; intros H'; [|congruence].
    rewrite B. intros E. apply app_eq_nil in E as [_ E].
    destruct screens; [now apply Hne | discriminate].
Qed.

Lemma activate_armed_inv now screens m :
  armed_inv m -> armed_inv (_activate_screensaver now screens m).
Proof.
  intros Hm. destruct (activate_cases now screens m) as [A|(A & B)].
  - intros H. congruence.
  - now apply (armed_inv_transfer m).
Qed.

Lemma deactivate_session_inv now m :
  session_inv m -> session_inv (deactivate_screensaver now m).
Proof.
  intros Hm. destruct (is_active m) eqn:H.
  - destruct (deactivate_active now m H) as (A & B & _).
    split; intros H'; congruence.
  - now rewrite deactivate_inactive.
Qed.

Lemma deactivate_armed_inv now m :
  armed_inv m -> armed_inv (deactivate_screensaver now m).
Proof.
  intros Hm. destruct (is_active m) eqn:H.
  - destruct (deactivate_active now m H) as (_ & _ & A). now intros _.
  - now rewrite deactivate_inactive.
Qed.

Lemma overlay_input_session_inv now i m :
  session_inv m -> session_inv (overlay_input now i m).
Proof.
  intros Hm. destruct (is_active m) eqn:H.
  - destruct (overlay_input_active now i m H) as [->|(A & B & _)];
      [assumption|].
    split; intros H'; congruence.
  - unfold overlay_input. rewrite (proj2 Hm H). now destruct i.
Qed.

Lemma overlay_input_armed_inv now i m :
  armed_inv m -> armed_inv (overlay_input now i m).
Proof.
  intros Hm. destruct (is_active m) eqn:H.
  - destruct (overlay_input_active now i m H) as [->|(_ & _ & A)];
      [assumption|]. now intros _.
  - intros _. apply (overlay_input_stable _ _ _ _ stable_off_timer_idle).
    now apply Hm.
Qed.

Lemma cleanup_session_inv now m : session_inv m -> session_inv (cleanup now m).
Proof.
  intros Hm. unfold cleanup.
  destruct (disconnect_slots_frame
              (deactivate_screensaver now
                 (stop_monitoring
                    (emit (Log_info "Performing ScreensaverManager cleanup...")
                       m)))) as (A & B & _).
  eapply session_inv_transfer; [exact A | exact B |].
  apply deactivate_session_inv.
  now apply (session_inv_transfer m).
Qed.

Lemma cleanup_armed_inv now m : armed_inv m -> armed_inv (cleanup now m).
Proof.
  intros Hm. unfold cleanup.
  destruct (disconnect_slots_frame
              (deactivate_screensaver now
                 (stop_monitoring
                    (emit (Log_info "Performing ScreensaverManager cleanup...")
                       m)))) as (A & _ & B & _).
  eapply armed_inv_transfer; [exact A | exact B |].
  apply deactivate_armed_inv.
  now apply (armed_inv_transfer m).
Qed.

Lemma step_session_inv m a :
  displays_ok a = true -> session_inv m -> session_inv (step m a).
Proof.
  intros Hok Hm.
  destruct a as [now d screens|now screens|now|now i| | |now cfg
                |now perr|now]; cbn [step].
  - destruct (QTimer.due now (poll_timer m)); [|assumption].
    destruct (poll_cases now d screens
                (set_poll_timer (QTimer.fired now (poll_timer m)) m))
      as (m1 & A & B & _ & _ & _ & [E|[(s & E)|E]]); rewrite E;
      assert (H1 : session_inv m1) by now apply (session_inv_transfer m).
    + assumption.
    + now apply _set_state_session_inv.
    + apply _set_state_session_inv, activate_session_inv; trivial;
        simpl in Hok; destruct screens; congruence.
  - unfold toggle_screensaver. destruct (is_active m).
    + now apply deactivate_session_inv.
    + apply activate_session_inv; trivial;
        simpl in Hok; destruct screens; congruence.
  - now apply deactivate_session_inv.
  - now apply overlay_input_session_inv.
  - unfold on_mouse. destruct (alive _); [|assumption].
    now apply (session_inv_transfer m).
  - unfold on_keyboard. destruct (alive _); [|assumption].
    now apply (session_inv_transfer m).
  - cbn. destruct (config_updated_connected m).
    + destruct (config_updated_frame now (set_config cfg m)) as (A & B & _).
      now apply (session_inv_transfer m).
    + now apply (session_inv_transfer m).
  - destruct (QTimer.due now _); [|assumption]. cbn.
    destruct (off_timer_connected m).
    + apply (session_inv_transfer m); trivial;
        unfold _turn_off_screen; now destruct perr.
    + now apply (session_inv_transfer m).
  - now apply cleanup_session_inv.
Qed.

Lemma step_armed_inv m a : armed_inv m -> armed_inv (step m a).
Proof.
  intros Hm.
  destruct a as [now d screens|now screens|now|now i| | |now cfg
                |now perr|now]; cbn [step].
  - destruct (QTimer.due now (poll_timer m)); [|assumption].
    destruct (poll_cases now d screens
                (set_poll_timer (QTimer.fired now (poll_timer m)) m))
      as (m1 & A & _ & B & _ & _ & [E|[(s & E)|E]]); rewrite E;
      assert (H1 : armed_inv m1) by now apply (armed_inv_transfer m).
    + assumption.
    + now apply _set_state_armed_inv.
    + now apply _set_state_armed_inv, activate_armed_inv.
  - unfold toggle_screensaver. destruct (is_active m).
    + now apply deactivate_armed_inv.
    + now apply activate_armed_inv.
  - now apply deactivate_armed_inv.
  - now apply overlay_input_armed_inv.
  - unfold on_mouse. destruct (alive _); [|assumption].
    now apply (armed_inv_transfer m).
  - unfold on_keyboard. destruct (alive _); [|assumption].
    now apply (armed_inv_transfer m).
  - cbn. destruct (config_updated_connected m).
    + destruct (config_updated_frame now (set_config cfg m))
        as (A & _ & _ & B).
      intros H. unfold off_timer_idle.
      apply Bool.not_true_is_false. intros Ea.
      rewrite A in H. apply Hm in H. apply B in Ea.
      unfold off_timer_idle in H. cbn in Ea. congruence.
    + now apply (armed_inv_transfer m).
  - destruct (QTimer.due now (screensaver_off_timer m)) eqn:Ed;
      [|assumption].
    assert (Hact : is_active m = true).
    { destruct (is_active m) eqn:H; [reflexivity|].
      specialize (Hm H). unfold off_timer_idle in Hm.
      unfold QTimer.due in Ed. rewrite Hm in Ed. discriminate. }
    intros H. exfalso. revert H. cbn.
    destruct (off_timer_connected m); cbn.
    + unfold _turn_off_screen. destruct perr; cbn; congruence.
    + congruence.
  - now apply cleanup_armed_inv.
Qed.

Lemma init_invariants now herr cfg :
  session_inv (__init__ now herr cfg) /\ armed_inv (__init__ now herr cfg).
Proof.
  unfold __init__. cbn.
  destruct (enable_auto_activation cfg); split;
    try (split; intros H; cbn in *; congruence);
    intros _; reflexivity.
Qed.

Lemma run_session_inv acts : forall m,
  forallb displays_ok acts = true -> session_inv m ->
  session_inv (run acts m).
Proof.
  induction acts as [|a acts IH]; intros m H Hm; [assumption|].
  simpl in H. apply andb_prop in H as [Ha Hacts].
  apply (IH (step m a)); [assumption|]. now apply step_session_inv.
Qed.

Lemma run_armed_inv acts : forall m, armed_inv m -> armed_inv (run acts m).
Proof.
  induction acts as [|a acts IH]; intros m Hm; [assumption|].
  apply (IH (step m a)). now apply step_armed_inv.
Qed.

(** ** The power command *)

Lemma deactivate_power_off_count now m :
  power_off_count (deactivate_screensaver now m) = power_off_count m.
Proof. now apply (deactivate_stable _ _ _ (stable_power_off_count _)). Qed.

Lemma emit_power_off_count e m :
  is_power_off e = false -> power_off_count (emit e m) = power_off_count m.
Proof. intros H. unfold power_off_count. cbn. now rewrite filter_app_one. Qed.

Lemma cleanup_power_off_count now m :
  power_off_count (cleanup now m) = power_off_count m.
Proof.
  unfold cleanup. rewrite emit_power_off_count by reflexivity.
  unfold power_off_count at 1.
  rewrite (proj1 (proj2 (proj2 (proj2 (proj2 (disconnect_slots_frame _)))))).
  fold (power_off_count
          (deactivate_screensaver now
             (stop_monitoring
                (emit (Log_info "Performing ScreensaverManager cleanup...") m)))).
  rewrite deactivate_power_off_count.
  unfold stop_monitoring, power_off_count. cbn.
  now rewrite !filter_app_one.
Qed.

(** With the screen-off timer disarmed, no step of the event loop sends
    the power command. *)
Lemma step_power_off_count m a :
  off_timer_idle m -> power_off_count (step m a) = power_off_count m.
Proof.
  intros Hidle.
  destruct a as [now d screens|now screens|now|now i| | |now cfg
                |now perr|now]; cbn [step].
  - destruct (QTimer.due now (poll_timer m)); [|reflexivity].
    destruct (poll_cases now d screens
                (set_poll_timer (QTimer.fired now (poll_timer m)) m))
      as (m1 & _ & _ & _ & _ & C & [E|[(s & E)|E]]); rewrite E.
    + exact C.
    + now rewrite (proj2 (proj2 (proj2 (proj2 (proj2 (proj2 (proj2
                     (_set_state_frame s m1)))))))).
    + rewrite (proj2 (proj2 (proj2 (proj2 (proj2 (proj2 (proj2
                 (_set_state_frame ACTIVE _)))))))).
      now rewrite (proj2 (activate_outside_session now screens m1)).
  - unfold toggle_screensaver. destruct (is_active m).
    + apply deactivate_power_off_count.
    + apply (activate_outside_session now screens m).
  - apply deactivate_power_off_count.
  - now apply (overlay_input_stable _ _ _ _ (stable_power_off_count _)).
  - unfold on_mouse. now destruct (alive _).
  - unfold on_keyboard. now destruct (alive _).
  - cbn. destruct (config_updated_connected m); [|reflexivity].
    apply (config_updated_frame now (set_config cfg m)).
  - unfold QTimer.due. unfold off_timer_idle in Hidle. now rewrite Hidle.
  - apply cleanup_power_off_count.
Qed.

(** Without a session and with the timer disarmed, a step that cannot
    activate leaves both so. *)
Lemma step_stays_disarmed m a :
  no_activation a = true -> is_active m = false -> off_timer_idle m ->
  is_active (step m a) = false /\ off_timer_idle (step m a).
Proof.
  intros Ha Hact Hidle.
  destruct a as [now d screens|now screens|now|now i| | |now cfg
                |now perr|now]; cbn [step]; try discriminate.
  - now rewrite deactivate_inactive.
  - split.
    + now apply (overlay_input_stable _ _ _ _ stable_inactive).
    + now apply (overlay_input_stable _ _ _ _ stable_off_timer_idle).
  - unfold on_mouse. now destruct (alive _).
  - unfold on_keyboard. now destruct (alive _).
  - cbn. destruct (config_updated_connected m); [|now split].
    destruct (config_updated_frame now (set_config cfg m)) as (A & _ & _ & B).
    split; [now rewrite A|].
    unfold off_timer_idle. apply Bool.not_true_is_false. intros Ea.
    apply B in Ea. unfold off_timer_idle in Hidle. cbn in Ea. congruence.
  - unfold QTimer.due. unfold off_timer_idle in Hidle. rewrite Hidle.
    now split.
  - unfold cleanup.
    destruct (disconnect_slots_frame
                (deactivate_screensaver now
                   (stop_monitoring
                      (emit (Log_info "Performing ScreensaverManager cleanup...")
                         m)))) as (A & _ & B & _).
    cbn [emit is_active screensaver_off_timer off_timer_idle].
    unfold off_timer_idle. cbn [emit screensaver_off_timer].
    rewrite A, B. rewrite deactivate_inactive by exact Hact.
    now split.
Qed.

Lemma run_stays_disarmed acts : forall m,
  forallb no_activation acts = true -> is_active m = false ->
  off_timer_idle m ->
  power_off_count (run acts m) = power_off_count m.
Proof.
  induction acts as [|a acts IH]; intros m H Hact Hidle; [reflexivity|].
  simpl in H. apply andb_prop in H as [Ha Hacts].
  destruct (step_stays_disarmed m a Ha Hact Hidle) as (A & B).
  cbn [run fold_left]. fold (run acts (step m a)).
  rewrite IH by assumption. now apply step_power_off_count.
Qed.

(** ** The ten-cycle run *)

Lemma _is_video_playing_frame d m :
  state (snd (_is_video_playing d m)) = state m
  /\ config (snd (_is_video_playing d m)) = config m
  /\ last_input_time (snd (_is_video_playing d m)) = last_input_time m
  /\ _input_activity (snd (_is_video_playing d m)) = _input_activity m
  /\ is_active (snd (_is_video_playing d m)) = is_active m
  /\ screensaver_windows (snd (_is_video_playing d m)) = screensaver_windows m
  /\ poll_timer (snd (_is_video_playing d m)) = poll_timer m.
Proof.
  unfold _is_video_playing. destruct (top_level_windows d); now repeat split.
Qed.

(** A cycle without input and without video, before the delay is over. *)
Lemma poll_quiet now d screens m :
  _input_activity m = false -> no_video d ->
  now - last_input_time m < delay_minutes (config m) * 60 * ms_per_second ->
  _poll_inactivity now d screens m
  = _set_state WAITING (snd (_is_video_playing d m)).
Proof.
  intros Hi Hv Hlt. unfold _poll_inactivity, _user_is_active. rewrite Hi.
  pose proof (Hv m) as V.
  destruct (_is_video_playing_frame d m) as (_ & _ & L & _).
  destruct (_is_video_playing d m) as [v m1]. cbn [fst snd] in *.
  subst v. rewrite L.
  destruct (Z.leb_spec (delay_minutes (config m) * 60 * ms_per_second)
              (now - last_input_time m)); [lia | reflexivity].
Qed.

(** A cycle without input and without video, once the delay is over. *)
Lemma poll_activates now d screens m :
  _input_activity m = false -> no_video d ->
  delay_minutes (config m) * 60 * ms_per_second <= now - last_input_time m ->
  state m <> ACTIVE ->
  _poll_inactivity now d screens m
  = _set_state ACTIVE
      (_activate_screensaver now screens (snd (_is_video_playing d m))).
Proof.
  intros Hi Hv Hle Hs. unfold _poll_inactivity, _user_is_active. rewrite Hi.
  pose proof (Hv m) as V.
  destruct (_is_video_playing_frame d m) as (S & _ & L & _).
  destruct (_is_video_playing d m) as [v m1]. cbn [fst snd] in *.
  subst v. rewrite L, S.
  destruct (Z.leb_spec (delay_minutes (config m) * 60 * ms_per_second)
              (now - last_input_time m)); [|lia].
  destruct (State_eqb (state m) ACTIVE) eqn:E; [|reflexivity].
  apply State_eqb_eq in E. contradiction.
Qed.

Lemma _set_state_config s m : config (_set_state s m) = config m.
Proof. unfold _set_state. now destruct (negb _). Qed.

Lemma _set_state_events s m :
  forall e, In e (events m) -> In e (events (_set_state s m)).
Proof.
  intros e H. unfold _set_state. destruct (negb _); [|assumption].
  cbn. apply in_or_app. now left.
Qed.

Lemma quiet_cycle t0 t d screens m :
  quiet_inv t0 t m -> no_video d -> t + 30000 - t0 < 300000 ->
  quiet_inv t0 (t + 30000) (step m (PollTimeout (t + 30000) d screens))
  /\ state (step m (PollTimeout (t + 30000) d screens)) = WAITING.
Proof.
  intros (Hd & Hl & Hi & Ha & Hw & Hp) Hv Hlt. cbn [step].
  rewrite Hp. unfold QTimer.due, QTimer.fired. cbn [QTimer.active
    QTimer.deadline QTimer.singleShot QTimer.interval andb].
  rewrite Z.leb_refl.
  rewrite poll_quiet; trivial.
  - split; [|apply _set_state_state].
    destruct (_set_state_frame WAITING
                (snd (_is_video_playing d
                        (set_poll_timer
                           (QTimer.mk true 30000 false (t + 30000 + 30000)) m))))
      as (A & B & C & D & _ & F & _).
    destruct (_is_video_playing_frame d
                (set_poll_timer
                   (QTimer.mk true 30000 false (t + 30000 + 30000)) m))
      as (_ & A' & B' & C' & D' & E' & F').
    unfold quiet_inv.
    rewrite _set_state_config, A, B, C, D, F, A', B', C', D', E', F'.
    cbn. now repeat split.
  - cbn. rewrite Hl, Hd. unfold ms_per_second. lia.
Qed.

Lemma quiet_cycles t0 : forall envs t m,
  quiet_inv t0 t m ->
  Forall (fun e => no_video (fst e)) envs ->
  t + 30000 * Z.of_nat (List.length envs) - t0 < 300000 ->
  quiet_inv t0 (t + 30000 * Z.of_nat (List.length envs))
    (run (poll_cycles t 30000 envs) m)
  /\ (envs <> [] -> state (run (poll_cycles t 30000 envs) m) = WAITING)
  /\ (envs = [] -> run (poll_cycles t 30000 envs) m = m).
Proof.
  induction envs as [|[d screens] envs IH]; intros t m Hm Hv Hlt.
  - cbn [List.length poll_cycles run fold_left].
    replace (t + 30000 * Z.of_nat 0) with t by (cbn; lia).
    split; [exact Hm|]. split; [intros H; now elim H | reflexivity].
  - inversion Hv as [|? ? Hd Hrest]; subst.
    cbn [poll_cycles run fold_left].
    fold (run (poll_cycles (t + 30000) 30000 envs)
            (step m (PollTimeout (t + 30000) d screens))).
    cbn [List.length] in *. rewrite Nat2Z.inj_succ in *.
    destruct (quiet_cycle t0 t d screens m Hm Hd) as (Q & S); [lia|].
    destruct (IH (t + 30000) _ Q Hrest) as (Q' & S' & E'); [lia|].
    replace (t + 30000 * Z.succ (Z.of_nat (List.length envs)))
      with (t + 30000 + 30000 * Z.of_nat (List.length envs)) by lia.
    repeat split; try apply Q'; try discriminate.
    intros _. destruct envs as [|e envs].
    + now rewrite E'.
    + apply S'. discriminate.
Qed.

Lemma poll_cycles_app t p a : forall t0 b,
  t = t0 ->
  poll_cycles t0 p (a ++ b)
  = poll_cycles t0 p a
    ++ poll_cycles (t0 + p * Z.of_nat (List.length a)) p b.
Proof.
  revert t. induction a as [|[d s] a IH]; intros t t0 b _.
  - cbn. now rewrite Z.mul_0_r, Z.add_0_r.
  - cbn [app poll_cycles List.length]. rewrite (IH (t0 + p) (t0 + p) b eq_refl).
    rewrite Nat2Z.inj_succ.
    replace (t0 + p + p * Z.of_nat (List.length a))
      with (t0 + p * Z.succ (Z.of_nat (List.length a))) by lia.
    reflexivity.
Qed.

Lemma poll_cycles_firstn p : forall k t envs,
  firstn k (poll_cycles t p envs) = poll_cycles t p (firstn k envs).
Proof.
  induction k as [|k IH]; intros t [|[d s] envs]; cbn; try reflexivity.
  now rewrite IH.
Qed.

Lemma run_app a b m : run (a ++ b) m = run b (run a m).
Proof. apply fold_left_app. Qed.

Lemma Forall_firstn_keep {A} (P : A -> Prop) k : forall l,
  Forall P l -> Forall P (firstn k l).
Proof.
  induction k as [|k IH]; intros [|x l] H; cbn; try constructor.
  - now inversion H.
  - apply IH. now inversion H.
Qed.

Lemma init_quiet_inv t0 herr off :
  quiet_inv t0 t0 (__init__ t0 herr (five_minute_config off))
  /\ state (__init__ t0 herr (five_minute_config off)) = IDLE.
Proof. unfold quiet_inv. cbn. now repeat split. Qed.

Lemma activate_logs now screens m :
  is_active m = false ->
  In (Log_info "Activating screensaver...")
     (events (_activate_screensaver now screens m)).
Proof.
  intros H. unfold _activate_screensaver. rewrite H.
  destruct (create_windows_cases screens
              (emit (Log_info "Activating screensaver...") m))
    as [(ws & E & _)|(e & ws & E)]; rewrite E; clear E; cbn.
  - destruct (0 <? _); cbn; rewrite <- ?app_assoc;
      apply in_or_app; right; now left.
  - rewrite <- !app_assoc. apply in_or_app; right; now left.
Qed.

(** The cycle that finds the delay over. *)
Lemma activating_cycle t0 t d screens m :
  quiet_inv t0 t m -> no_video d -> 300000 <= t + 30000 - t0 ->
  state m <> ACTIVE ->
  let m' := step m (PollTimeout (t + 30000) d screens) in
  state m' = ACTIVE
  /\ In (Log_info "Activating screensaver...") (events m')
  /\ (forallb display_ok screens = true ->
      is_active m' = true
      /\ map screen (screensaver_windows m') = screens
      /\ QTimer.active (poll_timer m') = false).
Proof.
  intros (Hd & Hl & Hi & Ha & Hw & Hp) Hv Hle Hs m'. subst m'. cbn [step].
  rewrite Hp. unfold QTimer.due, QTimer.fired. cbn [QTimer.active
    QTimer.deadline QTimer.singleShot QTimer.interval andb].
  rewrite Z.leb_refl.
  rewrite poll_activates; trivial.
  2:{ cbn. rewrite Hl, Hd. unfold ms_per_second. lia. }
  set (m1 := snd (_is_video_playing d
                    (set_poll_timer
                       (QTimer.mk true 30000 false (t + 30000 + 30000)) m))).
  destruct (_is_video_playing_frame d
              (set_poll_timer
                 (QTimer.mk true 30000 false (t + 30000 + 30000)) m))
    as (_ & _ & _ & _ & A1 & W1 & _).
  fold m1 in A1, W1. cbn in A1, W1. rewrite Ha in A1. rewrite Hw in W1.
  split; [apply _set_state_state|]. split.
  - apply _set_state_events. now apply activate_logs.
  - intros Hok.
    destruct (_set_state_frame ACTIVE
                (_activate_screensaver (t + 30000) screens m1))
      as (_ & A & W & P & _).
    destruct (activate_ok (t + 30000) screens m1 A1 Hok) as (A' & W' & P').
    rewrite A, W, P, A', W', W1, P'. cbn. rewrite surfaces_screen.
    now repeat split.
Qed.

(** ** Cleanup *)

Lemma deactivate_restarts_polling now m :
  is_active m = true -> enable_auto_activation (config m) = true ->
  poll_timer (deactivate_screensaver now m)
  = QTimer.mk true (check_interval_seconds (config m) * 1000)
      (QTimer.singleShot (poll_timer (deactivate_screensaver now m)))
      (now + check_interval_seconds (config m) * 1000).
Proof.
  intros H Hauto. unfold deactivate_screensaver.
  destruct (deactivate_slot_total now m) as (m' & E). rewrite E.
  unfold deactivate_slot in E. cbn [deactivate_fuel] in E.
  rewrite H in E. cbn [negb] in E.
  match type of E with
  | context [close_all ?s ?n ?i ?x] =>
      destruct (close_all s n i x) as [m2|] eqn:Ec; [|discriminate];
      assert (C : outside_session m2 = outside_session m)
  end.
  { eapply (close_all_stable _ (stable_outside_session (outside_session m)));
      [| |exact Ec].
    - intros a b Ha Hb.
      exact (deactivate_fuel_stable _ (stable_outside_session _)
               _ _ _ _ Ha Hb).
    - now destruct (QTimer.isActive _). }
  apply outside_session_fields in C. destruct C as (C & _).
  cbn in E. rewrite C, Hauto in E. injection E as <-.
  cbn. now rewrite C.
Qed.

(** * The claims *)

(** ** Poll cycles *)

(** C1.  A poll cycle that consumes the activity flag sets
    [last_input_time] to the current clock reading, leaves the state
    [IDLE] and clears the flag; it makes no further check (its result does
    not depend on the desktop or on the screens, whatever the elapsed
    time) and touches neither the session nor a timer nor emits a
    signal.  The same holds of the poll timer's timeout in the event
    loop, and the state is still [IDLE] when the next poll cycle starts,
    whatever happened in between. *)
Theorem poll_consumed_activity_resets_to_idle now d screens m :
  _input_activity m = true ->
  let m' := _poll_inactivity now d screens m in
  last_input_time m' = now
  /\ state m' = IDLE
  /\ _input_activity m' = false
  /\ (forall d' screens', _poll_inactivity now d' screens' m = m')
  /\ is_active m' = is_active m
  /\ screensaver_windows m' = screensaver_windows m
  /\ poll_timer m' = poll_timer m
  /\ screensaver_off_timer m' = screensaver_off_timer m
  /\ filter is_signal (events m') = filter is_signal (events m)
  /\ (QTimer.due now (poll_timer m) = true ->
      state (step m (PollTimeout now d screens)) = IDLE)
  /\ (forall acts,
        forallb (fun a => negb (is_poll a)) acts = true ->
        state (run acts m') = IDLE).
Proof.
  intros H m'.
  assert (E : m' = (if negb (State_eqb (state m) IDLE)
                    then _set_state IDLE
                           (set_last_input_time now (set_input_activity false m))
                    else set_last_input_time now (set_input_activity false m)))
    by now apply poll_activity_unfold.
  assert (S : state m' = IDLE) by now apply poll_activity_state.
  assert (F : forall x, (if negb (State_eqb (state m) IDLE)
                         then _set_state IDLE x else x) = m' ->
              last_input_time m' = last_input_time x
              /\ _input_activity m' = _input_activity x
              /\ is_active m' = is_active x
              /\ screensaver_windows m' = screensaver_windows x
              /\ poll_timer m' = poll_timer x
              /\ screensaver_off_timer m' = screensaver_off_timer x
              /\ filter is_signal (events m') = filter is_signal (events x)).
  { intros x <-. destruct (negb _); [|repeat split].
    destruct (_set_state_frame IDLE x) as (A & B & C & D & G & I & J & _).
    repeat split; assumption. }
  destruct (F _ (eq_sym E)) as (A & B & C & D & G & I & J).
  repeat split; try assumption.
  - intros d' screens'. subst m'.
    now rewrite !poll_activity_unfold.
  - intros Hdue. cbn [step]. rewrite Hdue.
    now apply poll_activity_state.
  - intros acts Hacts. now rewrite run_keeps_state.
Qed.

Lemma poll_consumed_activity_resets_to_idle_witness :
  _input_activity waiting_manager_with_input = true
  /\ state waiting_manager_with_input = WAITING
  /\ last_input_time
       (_poll_inactivity 900000 video_desktop [display 0]
          waiting_manager_with_input) = 900000
  /\ state
       (_poll_inactivity 900000 video_desktop [display 0]
          waiting_manager_with_input) = IDLE.
Proof.
  split; [reflexivity|]. split; [reflexivity|].
  destruct (poll_consumed_activity_resets_to_idle 900000 video_desktop
              [display 0] waiting_manager_with_input eq_refl)
    as (A & B & _).
  split; assumption.
Defined.

(** C2.  A poll cycle that consumes no activity and detects a video
    leaves the state [WAITING], never [ACTIVE], whatever the elapsed time;
    it does not write [last_input_time], and it starts no session. *)
Theorem poll_during_video_waits now d screens m :
  _input_activity m = false ->
  fst (_is_video_playing d m) = true ->
  let m' := _poll_inactivity now d screens m in
  state m' = WAITING
  /\ state m' <> ACTIVE
  /\ last_input_time m' = last_input_time m
  /\ is_active m' = is_active m
  /\ screensaver_windows m' = screensaver_windows m
  /\ filter is_signal (events m') = filter is_signal (events m).
Proof.
  intros H V m'.
  assert (E : m' = _set_state WAITING m).
  { subst m'. unfold _poll_inactivity, _user_is_active. rewrite H.
    unfold _is_video_playing in *.
    destruct (top_level_windows d); simpl in V; [discriminate|].
    now rewrite V. }
  rewrite E.
  destruct (_set_state_frame WAITING m) as (A & B & C & _ & _ & _ & J & _).
  rewrite _set_state_state. repeat split; try assumption. discriminate.
Qed.

Lemma poll_during_video_waits_witness :
  _input_activity fresh_manager = false
  /\ fst (_is_video_playing video_desktop fresh_manager) = true
  /\ delay_minutes (config fresh_manager) * 60 * ms_per_second
     <= 900000 - last_input_time fresh_manager
  /\ state (_poll_inactivity 900000 video_desktop [display 0] fresh_manager)
     = WAITING
  /\ last_input_time
       (_poll_inactivity 900000 video_desktop [display 0] fresh_manager) = 0.
Proof.
  split; [reflexivity|]. split; [reflexivity|]. split; [vm_compute; discriminate|].
  destruct (poll_during_video_waits 900000 video_desktop [display 0]
              fresh_manager eq_refl eq_refl)
    as (A & _ & B & _).
  split; assumption.
Defined.

(** ** The session and the state field *)

(** C3, as stated, fails.  The manual toggle starts a session and leaves
    the state [IDLE]; the emergency exit after a poll cycle activated ends
    the session and leaves the state [ACTIVE].  So the session list is
    not tied to the state field, in either direction. *)
Lemma session_iff_state_active_counterexample :
  (forallb session_action [ToggleHotkey 5000 [display 0]] = true
   /\ screensaver_windows (run [ToggleHotkey 5000 [display 0]] fresh_manager)
      <> []
   /\ state (run [ToggleHotkey 5000 [display 0]] fresh_manager) = IDLE)
  /\ (forallb session_action (ten_quiet_cycles ++ [ExitHotkey 301000]) = true
      /\ screensaver_windows activated_then_dismissed = []
      /\ state activated_then_dismissed = ACTIVE)
  /\ ~ (forall acts,
          forallb session_action acts = true ->
          session_iff_state_active (run acts fresh_manager)).
Proof.
  split; [|split].
  - split; [reflexivity|]. split; [discriminate | reflexivity].
  - split; [reflexivity|]. split; reflexivity.
  - intros H.
    specialize (H [ToggleHotkey 5000 [display 0]] eq_refl).
    destruct H as [H _].
    assert (E : state (run [ToggleHotkey 5000 [display 0]] fresh_manager)
                = ACTIVE) by (apply H; discriminate).
    discriminate E.
Qed.

(** C3, amended.  In every state the event loop reaches from
    construction, when every activation finds at least one display and no
    window fails to build, the session list is inhabited exactly when
    [is_active] is set. *)
Theorem session_nonempty_iff_is_active now herr cfg acts :
  forallb displays_ok acts = true ->
  screensaver_windows (run acts (__init__ now herr cfg)) <> []
  <-> is_active (run acts (__init__ now herr cfg)) = true.
Proof.
  intros Hok.
  destruct (run_session_inv acts (__init__ now herr cfg) Hok
              (proj1 (init_invariants now herr cfg))) as (A & B).
  split.
  - intros Hne. destruct (is_active _); [reflexivity|].
    now elim Hne; apply B.
  - exact A.
Qed.

Lemma session_nonempty_iff_is_active_witness :
  forallb displays_ok (ten_quiet_cycles ++ [ExitHotkey 301000;
                                           ToggleHotkey 302000 [display 0];
                                           OverlayInput 303000 0;
                                           ToggleHotkey 304000 [display 1]])
  = true
  /\ (screensaver_windows
        (run (ten_quiet_cycles ++ [ExitHotkey 301000;
                                   ToggleHotkey 302000 [display 0];
                                   OverlayInput 303000 0;
                                   ToggleHotkey 304000 [display 1]])
           (__init__ 0 None default_config)) <> []
      <-> is_active
            (run (ten_quiet_cycles ++ [ExitHotkey 301000;
                                       ToggleHotkey 302000 [display 0];
                                       OverlayInput 303000 0;
                                       ToggleHotkey 304000 [display 1]])
               (__init__ 0 None default_config)) = true).
Proof.
  split; [reflexivity|].
  apply (session_nonempty_iff_is_active 0 None default_config). reflexivity.
Defined.

(** ** Surface failures *)

(** C4, as stated, fails.  With the second of three displays failing, the
    third gets no window and the session is not active although a window
    exists; with the first display failing no window exists and the poll
    cycle still leaves the state [ACTIVE]. *)
Lemma surface_failure_claim_counterexample :
  (let m' := _poll_inactivity 300000 quiet_desktop
               [display 0; broken_display 1; display 2] fresh_manager in
   map screen (screensaver_windows m') = [display 0]
   /\ is_active m' = false /\ state m' = ACTIVE)
  /\ (let m' := _poll_inactivity 300000 quiet_desktop
                  [broken_display 0; display 1] fresh_manager in
      screensaver_windows m' = []
      /\ is_active m' = false /\ state m' = ACTIVE)
  /\ ~ surface_failure_claim 300000 quiet_desktop
         [display 0; broken_display 1; display 2] fresh_manager
  /\ ~ surface_failure_claim 300000 quiet_desktop
         [broken_display 0; display 1] fresh_manager.
Proof.
  split; [now vm_compute|]. split; [now vm_compute|]. split.
  - intros (H & _). vm_compute in H. discriminate H.
  - intros (_ & _ & H). destruct (H eq_refl) as (_ & E).
    vm_compute in E. discriminate E.
Qed.

(** C4, amended.  The first display whose window cannot be built aborts
    the activation: the failure is logged and reported through
    [error_occurred], the displays before it keep their windows, that
    display and the displays after it get none, the session flag stays
    cleared, and the state field and both timers are as before.  When
    every display accepts its window, each gets exactly one and the
    session flag is set. *)
Theorem activation_aborts_at_first_failure now m :
  is_active m = false ->
  (forall pre s e post,
     forallb display_ok pre = true -> surface_error s = Some e ->
     let m' := _activate_screensaver now (pre ++ s :: post) m in
     screensaver_windows m' = screensaver_windows m ++ surfaces pre
     /\ is_active m' = false
     /\ state m' = state m
     /\ poll_timer m' = poll_timer m
     /\ screensaver_off_timer m' = screensaver_off_timer m
     /\ events m'
        = events m
          ++ [Log_info "Activating screensaver...";
              Log_error ("Failed to activate screensaver: " ++ e);
              Emit_error_occurred ("Screensaver activation error: " ++ e)])
  /\ (forall screens,
        forallb display_ok screens = true ->
        let m' := _activate_screensaver now screens m in
        screensaver_windows m' = screensaver_windows m ++ surfaces screens
        /\ map screen (surfaces screens) = screens
        /\ is_active m' = true).
Proof.
  intros H. split.
  - intros pre s e post Hok He m'. subst m'.
    rewrite (activate_fails now pre s e post m H Hok He). cbn.
    repeat split; try assumption.
    now rewrite <- !app_assoc.
  - intros screens Hok m'.
    destruct (activate_ok now screens m H Hok) as (A & B & _).
    repeat split; try assumption. apply surfaces_screen.
Qed.

Lemma activation_aborts_at_first_failure_witness :
  is_active fresh_manager = false
  /\ forallb display_ok [display 0] = true
  /\ surface_error (broken_display 1) = Some "cannot create surface"
  /\ map screen
       (screensaver_windows
          (_activate_screensaver 1000
             ([display 0] ++ broken_display 1 :: [display 2]) fresh_manager))
     = [display 0]
  /\ is_active
       (_activate_screensaver 1000
          ([display 0] ++ broken_display 1 :: [display 2]) fresh_manager)
     = false
  /\ is_active
       (_activate_screensaver 1000 [display 0; display 2] fresh_manager)
     = true.
Proof.
  split; [reflexivity|]. split; [reflexivity|]. split; [reflexivity|].
  pose proof (proj1 (activation_aborts_at_first_failure 1000 fresh_manager
                       eq_refl)
                [display 0] (broken_display 1) "cannot create surface"
                [display 2] eq_refl eq_refl) as (A & B & _).
  pose proof (proj2 (activation_aborts_at_first_failure 1000 fresh_manager
                       eq_refl)
                [display 0; display 2] eq_refl) as (_ & _ & C).
  split; [|split; assumption].
  rewrite A. reflexivity.
Defined.

(** ** The ten-cycle run, end to end *)

(** C5.  A manager built with a delay of five minutes and a poll
    interval of thirty seconds starts [IDLE]; with no input and no video,
    its poll timer's timeouts thirty seconds apart leave the state
    [WAITING], without a session, after each of the cycles 1 to 9; the
    tenth, 300 seconds after construction, invokes activation and leaves
    the state [ACTIVE], with one window per display and the poll timer
    stopped when every display accepts its window. *)
Theorem ten_cycles_to_activation t0 herr off first9 d screens :
  List.length first9 = 9%nat ->
  Forall (fun e => no_video (fst e)) first9 ->
  no_video d ->
  let m0 := __init__ t0 herr (five_minute_config off) in
  let cycles :=
    poll_cycles t0 (30 * ms_per_second) (first9 ++ [(d, screens)]) in
  state m0 = IDLE
  /\ (forall k, (1 <= k <= 9)%nat ->
        state (run (firstn k cycles) m0) = WAITING
        /\ is_active (run (firstn k cycles) m0) = false
        /\ screensaver_windows (run (firstn k cycles) m0) = [])
  /\ state (run cycles m0) = ACTIVE
  /\ In (Log_info "Activating screensaver...") (events (run cycles m0))
  /\ (forallb display_ok screens = true ->
      is_active (run cycles m0) = true
      /\ map screen (screensaver_windows (run cycles m0)) = screens
      /\ QTimer.active (poll_timer (run cycles m0)) = false).
Proof.
  intros Hlen Hv Hd m0 cycles.
  change (30 * ms_per_second) with 30000 in cycles.
  destruct (init_quiet_inv t0 herr off) as (Q0 & S0). fold m0 in Q0, S0.
  split; [exact S0|]. split.
  - intros k Hk. subst cycles.
    rewrite poll_cycles_firstn, firstn_app.
    replace (k - List.length first9)%nat with 0%nat by lia.
    cbn [firstn]. rewrite app_nil_r.
    assert (Hk' : List.length (firstn k first9) = k)
      by (rewrite length_firstn; lia).
    destruct (quiet_cycles t0 (firstn k first9) t0 m0 Q0) as (Q & S & _).
    + now apply Forall_firstn_keep.
    + rewrite Hk'. lia.
    + split.
      * apply S. intros E. rewrite E in Hk'. cbn in Hk'. lia.
      * destruct Q as (_ & _ & _ & A & W & _). now split.
  - subst cycles.
    rewrite (poll_cycles_app t0 30000 first9 t0 [(d, screens)] eq_refl).
    rewrite run_app. rewrite Hlen. cbn [poll_cycles run fold_left].
    destruct (quiet_cycles t0 first9 t0 m0 Q0 Hv) as (Q & S & _);
      [rewrite Hlen; lia|].
    rewrite Hlen in Q.
    assert (S9 : state (run (poll_cycles t0 30000 first9) m0) <> ACTIVE).
    { rewrite S; [discriminate|]. intros E. now rewrite E in Hlen. }
    apply (activating_cycle t0 (t0 + 30000 * Z.of_nat 9) d screens _ Q Hd);
      [lia | exact S9].
Qed.

Lemma ten_cycles_to_activation_witness :
  List.length (repeat (quiet_desktop, [display 0]) 9) = 9%nat
  /\ Forall (fun e => no_video (fst e)) (repeat (quiet_desktop, [display 0]) 9)
  /\ no_video quiet_desktop
  /\ state
       (run (firstn 9
               (poll_cycles 0 (30 * ms_per_second)
                  (repeat (quiet_desktop, [display 0]) 9
                   ++ [(quiet_desktop, [display 0; display 1])])))
          (__init__ 0 None (five_minute_config 0))) = WAITING
  /\ state
       (run (poll_cycles 0 (30 * ms_per_second)
               (repeat (quiet_desktop, [display 0]) 9
                ++ [(quiet_desktop, [display 0; display 1])]))
          (__init__ 0 None (five_minute_config 0))) = ACTIVE.
Proof.
  assert (Q : no_video quiet_desktop) by (intros m; reflexivity).
  assert (F : Forall (fun e => no_video (fst e))
                (repeat (quiet_desktop, [display 0]) 9))
    by (repeat constructor; exact Q).
  split; [reflexivity|]. split; [exact F|]. split; [exact Q|].
  pose proof (ten_cycles_to_activation 0 None 0
                (repeat (quiet_desktop, [display 0]) 9)
                quiet_desktop [display 0; display 1] eq_refl F Q)
    as (_ & W & A & _).
  split; [|exact A].
  assert (K : (1 <= 9 <= 9)%nat) by lia.
  exact (proj1 (W 9%nat K)).
Defined.

(** ** Activation and deactivation are idempotent *)

(** C6.  With a session active, activation returns at once: the manager,
    its timers and its trace are what they were.  Hence two activations
    in a row, from a manager without session and with every display
    accepting its window, leave exactly one window per display. *)
Theorem activation_is_idempotent now now' screens screens' m :
  (is_active m = true -> _activate_screensaver now screens m = m)
  /\ (is_active m = false -> screensaver_windows m = [] ->
      forallb display_ok screens = true ->
      let m1 := _activate_screensaver now screens m in
      is_active m1 = true
      /\ map screen (screensaver_windows m1) = screens
      /\ _activate_screensaver now' screens' m1 = m1
      /\ map screen
           (screensaver_windows (_activate_screensaver now' screens' m1))
         = screens).
Proof.
  split.
  - intros H. unfold _activate_screensaver. now rewrite H.
  - intros H W Hok m1.
    assert (A : is_active m1 = true
                /\ screensaver_windows m1 = surfaces screens).
    { subst m1. unfold _activate_screensaver. rewrite H.
      rewrite create_windows_ok by assumption. cbn. rewrite W.
      destruct (0 <? _); now split. }
    destruct A as (A & B).
    assert (C : _activate_screensaver now' screens' m1 = m1).
    { unfold _activate_screensaver. now rewrite A. }
    rewrite C, B, surfaces_screen. now repeat split.
Qed.

Lemma activation_is_idempotent_witness :
  is_active fresh_manager = false
  /\ screensaver_windows fresh_manager = []
  /\ forallb display_ok [display 0; display 1] = true
  /\ map screen
       (screensaver_windows
          (_activate_screensaver 20 [display 0; display 1]
             (_activate_screensaver 10 [display 0; display 1] fresh_manager)))
     = [display 0; display 1]
  /\ is_active (_activate_screensaver 10 [display 0] fresh_manager) = true
  /\ _activate_screensaver 20 [display 0; display 1]
       (_activate_screensaver 10 [display 0] fresh_manager)
     = _activate_screensaver 10 [display 0] fresh_manager.
Proof.
  split; [reflexivity|]. split; [reflexivity|]. split; [reflexivity|].
  split.
  - exact (proj2 (proj2 (proj2
             (proj2 (activation_is_idempotent 10 20 [display 0; display 1]
                       [display 0; display 1] fresh_manager)
                eq_refl eq_refl eq_refl)))).
  - split; [reflexivity|].
    exact (proj1 (activation_is_idempotent 20 20 [display 0; display 1]
                    [display 0]
                    (_activate_screensaver 10 [display 0] fresh_manager))
             eq_refl).
Defined.

(** C7.  Without an active session, deactivation completes and changes
    nothing: no window is closed, no timer touched, no line logged and no
    signal emitted. *)
Theorem deactivation_without_session_is_noop now m :
  is_active m = false ->
  deactivate_slot now m = Some m /\ deactivate_screensaver now m = m.
Proof.
  intros H. split.
  - now apply deactivate_fuel_inactive.
  - now apply deactivate_inactive.
Qed.

Lemma deactivation_without_session_is_noop_witness :
  is_active fresh_manager = false
  /\ deactivate_screensaver 10 fresh_manager = fresh_manager.
Proof.
  split; [reflexivity|].
  exact (proj2 (deactivation_without_session_is_noop 10 fresh_manager eq_refl)).
Defined.

(** ** The screen-off timer *)

(** C8.  Every step of the event loop that ends an active session leaves
    the screen-off timer disarmed, as [deactivate_screensaver] on an
    active session always does; a step sends the power command only
    while a session is active.  With a delay of one minute the timer
    armed by an activation at [t] is due at [t] plus sixty seconds and
    not before; after the exit ten seconds later it is disarmed, and
    however the loop goes on without a new activation the power command
    is never sent. *)
Theorem screen_off_timer_disarmed_when_session_ends :
  (forall now herr cfg acts a,
     is_active (run acts (__init__ now herr cfg)) = true ->
     is_active (step (run acts (__init__ now herr cfg)) a) = false ->
     off_timer_idle (step (run acts (__init__ now herr cfg)) a))
  /\ (forall now m,
        is_active m = true -> off_timer_idle (deactivate_screensaver now m))
  /\ (forall now herr cfg acts a,
        power_off_count (step (run acts (__init__ now herr cfg)) a)
        <> power_off_count (run acts (__init__ now herr cfg)) ->
        is_active (run acts (__init__ now herr cfg)) = true)
  /\ (forall t0 herr screens t perr rest,
        forallb display_ok screens = true ->
        forallb no_activation rest = true ->
        let m1 := step (__init__ t0 herr one_minute_off_config)
                    (ToggleHotkey t screens) in
        let m2 := step m1 (ExitHotkey (t + 10 * ms_per_second)) in
        is_active m1 = true
        /\ QTimer.due (t + 60 * ms_per_second) (screensaver_off_timer m1) = true
        /\ (forall t', t' < t + 60 * ms_per_second ->
                       step m1 (OffTimerTimeout t' perr) = m1)
        /\ is_active m2 = false
        /\ off_timer_idle m2
        /\ power_off_count (run rest m2) = 0%nat).
Proof.
  split; [|split; [|split]].
  - intros now herr cfg acts a _ H.
    apply (step_armed_inv _ a); [|exact H].
    apply run_armed_inv, init_invariants.
  - intros now m H. apply (deactivate_active now m H).
  - intros now herr cfg acts a H.
    destruct (is_active _) eqn:Hact; [reflexivity|].
    elim H. apply step_power_off_count.
    apply (run_armed_inv acts _ (proj2 (init_invariants now herr cfg))).
    exact Hact.
  - intros t0 herr screens t perr rest Hok Hrest m1 m2.
    assert (E1 : is_active m1 = true
                 /\ screensaver_off_timer m1
                    = QTimer.mk true 60000 true (t + 60000)
                 /\ power_off_count m1 = 0%nat).
    { subst m1. cbn [step]. unfold toggle_screensaver, __init__.
      cbn. unfold _activate_screensaver. cbn.
      rewrite create_windows_ok by assumption. cbn.
      destruct herr; now repeat split. }
    destruct E1 as (A1 & T1 & P1).
    destruct (deactivate_active (t + 10 * ms_per_second) m1 A1)
      as (A2 & _ & I2).
    repeat split.
    + exact A1.
    + rewrite T1. unfold QTimer.due, ms_per_second. cbn.
      apply Z.leb_le. lia.
    + intros t' Ht'. cbn [step]. rewrite T1.
      unfold QTimer.due, ms_per_second in *. cbn.
      replace (t + 60000 <=? t') with false; [reflexivity|].
      symmetry. apply Z.leb_gt. lia.
    + exact A2.
    + exact I2.
    + rewrite run_stays_disarmed by assumption.
      subst m2. cbn [step]. now rewrite deactivate_power_off_count.
Qed.

Lemma screen_off_timer_disarmed_when_session_ends_witness :
  forallb display_ok [display 0; display 1] = true
  /\ forallb no_activation
       [OffTimerTimeout 60000 None; MouseEvent;
        ConfigUpdated 70000 one_minute_off_config;
        OffTimerTimeout 80000 None; Cleanup 90000] = true
  /\ is_active
       (step (__init__ 0 None one_minute_off_config)
          (ToggleHotkey 1000 [display 0; display 1])) = true
  /\ off_timer_idle
       (deactivate_screensaver 11000
          (step (__init__ 0 None one_minute_off_config)
             (ToggleHotkey 1000 [display 0; display 1])))
  /\ power_off_count
       (run [OffTimerTimeout 60000 None; MouseEvent;
             ConfigUpdated 70000 one_minute_off_config;
             OffTimerTimeout 80000 None; Cleanup 90000]
          (step
             (step (__init__ 0 None one_minute_off_config)
                (ToggleHotkey 1000 [display 0; display 1]))
             (ExitHotkey (1000 + 10 * ms_per_second)))) = 0%nat.
Proof.
  split; [reflexivity|]. split; [reflexivity|]. split; [reflexivity|].
  split.
  - exact (proj1 (proj2 screen_off_timer_disarmed_when_session_ends)
             11000
             (step (__init__ 0 None one_minute_off_config)
                (ToggleHotkey 1000 [display 0; display 1]))
             eq_refl).
  - exact (proj2 (proj2 (proj2 (proj2 (proj2
             (proj2 (proj2 (proj2 screen_off_timer_disarmed_when_session_ends))
                0 None [display 0; display 1] 1000 None
                [OffTimerTimeout 60000 None; MouseEvent;
                 ConfigUpdated 70000 one_minute_off_config;
                 OffTimerTimeout 80000 None; Cleanup 90000]
                eq_refl eq_refl)))))).
Defined.

(** ** Cleanup, as the code has it *)

(** C9, on the code.  [cleanup] ends the session and leaves the
    screen-off timer disarmed when it was armed for a session, but it
    leaves both input listeners as they were, and after it ended an
    active session with automatic activation enabled the poll timer is
    running again.  The sibling monitor's [stop] does stop its
    listeners. *)
Theorem cleanup_keeps_hooks_and_restarts_polling now m :
  _mouse_listener (cleanup now m) = _mouse_listener m
  /\ _keyboard_listener (cleanup now m) = _keyboard_listener m
  /\ (is_active m = true -> enable_auto_activation (config m) = true ->
      QTimer.active (poll_timer (cleanup now m)) = true)
  /\ is_active (cleanup now m) = false
  /\ (armed_inv m -> off_timer_idle (cleanup now m))
  /\ (forall x l,
        InactivityMonitor.mouse_listener x = Some l -> alive l = true ->
        InactivityMonitor.mouse_listener (InactivityMonitor.stop x)
        = Some {| alive := false |}).
Proof.
  set (m1 := stop_monitoring
               (emit (Log_info "Performing ScreensaverManager cleanup...") m)).
  assert (O : outside_session (deactivate_screensaver now m1)
              = outside_session m1) by apply deactivate_outside_session.
  apply outside_session_fields in O.
  destruct O as (_ & _ & _ & _ & Mo & Ke & _).
  destruct (disconnect_slots_frame (deactivate_screensaver now m1))
    as (A & _ & T & P & _ & Mo' & Ke').
  assert (Hin : is_active (deactivate_screensaver now m1) = false).
  { destruct (is_active m1) eqn:H1.
    - apply (deactivate_active now m1 H1).
    - now rewrite deactivate_inactive. }
  unfold cleanup. fold m1. cbn [emit _mouse_listener _keyboard_listener
    poll_timer is_active off_timer_idle screensaver_off_timer].
  split; [now rewrite Mo', Mo|]. split; [now rewrite Ke', Ke|].
  split; [|split; [|split]].
  - intros H Hauto. rewrite P.
    rewrite (deactivate_restarts_polling now m1); [reflexivity| exact H | exact Hauto].
  - now rewrite A.
  - intros Hm. unfold off_timer_idle.
    cbn [emit screensaver_off_timer]. rewrite T.
    apply (deactivate_armed_inv now m1).
    + now apply (armed_inv_transfer m).
    + exact Hin.
  - intros x l Hl Ha. cbn. rewrite Hl. cbn. now rewrite Ha.
Qed.

Lemma cleanup_keeps_hooks_and_restarts_polling_witness :
  is_active manager_with_session = true
  /\ enable_auto_activation (config manager_with_session) = true
  /\ QTimer.active (poll_timer manager_with_session) = false
  /\ alive (_mouse_listener (cleanup 2000 manager_with_session)) = true
  /\ alive (_keyboard_listener (cleanup 2000 manager_with_session)) = true
  /\ QTimer.active (poll_timer (cleanup 2000 manager_with_session)) = true.
Proof.
  split; [reflexivity|]. split; [reflexivity|]. split; [reflexivity|].
  destruct (cleanup_keeps_hooks_and_restarts_polling 2000 manager_with_session)
    as (A & B & C & _).
  rewrite A, B. split; [reflexivity|]. split; [reflexivity|].
  exact (C eq_refl eq_refl).
Defined.

(** ** What deactivation leaves of the state machine *)

(** C10.  Deactivation writes [is_active], the session list, the two
    timers and the trace, and nothing else: the state field and
    [last_input_time] keep their values, and the state field keeps it
    through every later action that is not a poll cycle.  A manager
    whose poll cycle activated and whose overlay was dismissed has state
    [ACTIVE] and no session. *)
Theorem deactivation_keeps_state_field now m :
  state (deactivate_screensaver now m) = state m
  /\ last_input_time (deactivate_screensaver now m) = last_input_time m
  /\ outside_session (deactivate_screensaver now m) = outside_session m
  /\ (forall acts,
        forallb (fun a => negb (is_poll a)) acts = true ->
        state (run acts (deactivate_screensaver now m)) = state m)
  /\ (state activated_then_dismissed = ACTIVE
      /\ is_active activated_then_dismissed = false
      /\ screensaver_windows activated_then_dismissed = []).
Proof.
  pose proof (deactivate_outside_session now m) as O.
  destruct (outside_session_fields _ _ O) as (_ & A & B & _).
  repeat split; try assumption.
  intros acts H. now rewrite run_keeps_state.
Qed.

Lemma deactivation_keeps_state_field_witness :
  forallb (fun a => negb (is_poll a))
    [MouseEvent; ConfigUpdated 302000 one_minute_off_config;
     OffTimerTimeout 400000 None] = true
  /\ state (run ten_quiet_cycles fresh_manager) = ACTIVE
  /\ state
       (run [MouseEvent; ConfigUpdated 302000 one_minute_off_config;
             OffTimerTimeout 400000 None]
          (deactivate_screensaver 301000 (run ten_quiet_cycles fresh_manager)))
     = state (run ten_quiet_cycles fresh_manager).
Proof.
  split; [reflexivity|]. split; [reflexivity|].
  exact (proj1 (proj2 (proj2 (proj2
           (deactivation_keeps_state_field 301000
              (run ten_quiet_cycles fresh_manager)))))
           [MouseEvent; ConfigUpdated 302000 one_minute_off_config;
            OffTimerTimeout 400000 None]
           eq_refl).
Defined.

(** * Further properties of the code *)

(** ** Video detection *)

Lemma is_video_window_true d hwnd :
  is_video_window d hwnd = true
  <-> exists name r0 r1 r2 r3,
        owner_exe hwnd = Some name
        /\ str_in (lower name) video_apps = true
        /\ window_visible hwnd = true
        /\ window_rect hwnd = Some (r0, r1, r2, r3)
        /\ SM_CXSCREEN d - 10 <= r2 - r0
        /\ SM_CYSCREEN d - 40 <= r3 - r1.
Proof.
  unfold is_video_window, is_fullscreen. split.
  - destruct (owner_exe hwnd) as [name|]; [|discriminate].
    destruct (str_in (lower name) video_apps) eqn:Ein; [|discriminate].
    destruct (window_visible hwnd); [|discriminate]. cbn [negb].
    destruct (window_rect hwnd) as [[[[r0 r1] r2] r3]|]; [|discriminate].
    destruct (_ && _) eqn:E; [|discriminate]. intros _.
    apply andb_prop in E as [E1 E2].
    apply Z.leb_le in E1. apply Z.leb_le in E2.
    exists name, r0, r1, r2, r3. now repeat split.
  - intros (name & r0 & r1 & r2 & r3 & -> & -> & -> & -> & H1 & H2).
    cbn [negb]. apply Z.leb_le in H1. apply Z.leb_le in H2.
    now rewrite H1, H2.
Qed.

(** X1.  [_is_video_playing] answers true exactly when the enumeration
    succeeds and lists a visible window, owned by a process whose name in
    lower case is one of the listed players and browsers, whose bounds
    are known and at most 10 pixels narrower and 40 pixels lower than the
    screen; a window whose process or bounds cannot be read never counts.
    The manager is changed only when the enumeration raises: the answer
    is then false and one error line is logged. *)
Theorem video_detection_criterion d m :
  (fst (_is_video_playing d m) = true
   <-> exists hwnds hwnd name r0 r1 r2 r3,
         top_level_windows d = inr hwnds
         /\ In hwnd hwnds
         /\ owner_exe hwnd = Some name
         /\ str_in (lower name) video_apps = true
         /\ window_visible hwnd = true
         /\ window_rect hwnd = Some (r0, r1, r2, r3)
         /\ SM_CXSCREEN d - 10 <= r2 - r0
         /\ SM_CYSCREEN d - 40 <= r3 - r1)
  /\ (forall hwnds, top_level_windows d = inr hwnds ->
                    snd (_is_video_playing d m) = m)
  /\ (forall e, top_level_windows d = inl e ->
                _is_video_playing d m
                = (false, emit (Log_error ("Error in video detection: " ++ e)) m)).
Proof.
  unfold _is_video_playing. split; [|split].
  - destruct (top_level_windows d) as [e|hwnds]; cbn [fst]; split.
    + discriminate.
    + intros (hwnds & hwnd & name & r0 & r1 & r2 & r3 & H & _). discriminate.
    + intros H. apply existsb_exists in H as (hwnd & Hin & Hv).
      apply is_video_window_true in Hv
        as (name & r0 & r1 & r2 & r3 & H).
      exists hwnds, hwnd, name, r0, r1, r2, r3. now repeat split.
    + intros (hwnds' & hwnd & name & r0 & r1 & r2 & r3 & [= <-] & Hin & H).
      apply existsb_exists. exists hwnd. split; [assumption|].
      apply is_video_window_true. now exists name, r0, r1, r2, r3.
  - now intros hwnds ->.
  - now intros e ->.
Qed.

Lemma video_detection_criterion_witness :
  fst (_is_video_playing video_desktop fresh_manager) = true
  /\ snd (_is_video_playing video_desktop fresh_manager) = fresh_manager.
Proof.
  assert (E : exists hwnds hwnd name r0 r1 r2 r3,
            top_level_windows video_desktop = inr hwnds
            /\ In hwnd hwnds
            /\ owner_exe hwnd = Some name
            /\ str_in (lower name) video_apps = true
            /\ window_visible hwnd = true
            /\ window_rect hwnd = Some (r0, r1, r2, r3)
            /\ SM_CXSCREEN video_desktop - 10 <= r2 - r0
            /\ SM_CYSCREEN video_desktop - 40 <= r3 - r1).
  { eexists. exists player_window, "VLC.exe", 0, 0, 1920, 1040.
    split; [reflexivity|]. split; [right; left; reflexivity|].
    repeat split; try reflexivity; vm_compute; discriminate. }
  split.
  - exact (proj2 (proj1 (video_detection_criterion video_desktop fresh_manager))
             E).
  - exact (proj1 (proj2 (video_detection_criterion video_desktop fresh_manager))
             _ eq_refl).
Defined.

(** ** The elapsed-time test of the poll cycle *)

(** X2.  Without input and without video, a poll cycle of a manager
    whose state is not [ACTIVE] activates exactly when the time since the
    last input has reached the delay: at the delay itself it leaves the
    state [ACTIVE] and has invoked activation, one millisecond earlier it
    leaves the state [WAITING] and the session untouched.  With a delay
    of zero or less the first such cycle activates. *)
Theorem poll_activates_at_the_delay now d screens m :
  _input_activity m = false ->
  no_video d ->
  state m <> ACTIVE ->
  (delay_minutes (config m) * 60 * ms_per_second <= now - last_input_time m ->
   state (_poll_inactivity now d screens m) = ACTIVE
   /\ (is_active m = false ->
       In (Log_info "Activating screensaver...")
          (events (_poll_inactivity now d screens m))))
  /\ (now - last_input_time m < delay_minutes (config m) * 60 * ms_per_second ->
      state (_poll_inactivity now d screens m) = WAITING
      /\ is_active (_poll_inactivity now d screens m) = is_active m
      /\ screensaver_windows (_poll_inactivity now d screens m)
         = screensaver_windows m)
  /\ (delay_minutes (config m) <= 0 -> last_input_time m <= now ->
      state (_poll_inactivity now d screens m) = ACTIVE).
Proof.
  intros Hi Hv Hs.
  assert (A : delay_minutes (config m) * 60 * ms_per_second
              <= now - last_input_time m ->
              state (_poll_inactivity now d screens m) = ACTIVE
              /\ (is_active m = false ->
                  In (Log_info "Activating screensaver...")
                     (events (_poll_inactivity now d screens m)))).
  { intros Hle. rewrite poll_activates by assumption.
    split; [apply _set_state_state|].
    intros Ha. apply _set_state_events, activate_logs.
    now rewrite (proj1 (proj2 (proj2 (proj2 (proj2
                  (_is_video_playing_frame d m)))))). }
  split; [exact A|]. split.
  - intros Hlt. rewrite poll_quiet by assumption.
    destruct (_set_state_frame WAITING (snd (_is_video_playing d m)))
      as (_ & B & C & _).
    destruct (_is_video_playing_frame d m) as (_ & _ & _ & _ & B' & C' & _).
    rewrite _set_state_state, B, C, B', C'. now repeat split.
  - intros Hd Hl. apply A. unfold ms_per_second. lia.
Qed.

Lemma poll_activates_at_the_delay_witness :
  _input_activity fresh_manager = false
  /\ no_video quiet_desktop
  /\ state fresh_manager <> ACTIVE
  /\ state (_poll_inactivity 300000 quiet_desktop [display 0] fresh_manager)
     = ACTIVE
  /\ state (_poll_inactivity 299999 quiet_desktop [display 0] fresh_manager)
     = WAITING.
Proof.
  assert (Q : no_video quiet_desktop) by (intros m; reflexivity).
  assert (S : state fresh_manager <> ACTIVE) by discriminate.
  split; [reflexivity|]. split; [exact Q|]. split; [exact S|].
  destruct (poll_activates_at_the_delay 300000 quiet_desktop [display 0]
              fresh_manager eq_refl Q S) as (A & _).
  destruct (poll_activates_at_the_delay 299999 quiet_desktop [display 0]
              fresh_manager eq_refl Q S) as (_ & B & _).
  assert (Hle : delay_minutes (config fresh_manager) * 60 * ms_per_second
                <= 300000 - last_input_time fresh_manager)
    by (vm_compute; discriminate).
  assert (Hlt : 299999 - last_input_time fresh_manager
                < delay_minutes (config fresh_manager) * 60 * ms_per_second)
    by reflexivity.
  split.
  - exact (proj1 (A Hle)).
  - exact (proj1 (B Hlt)).
Defined.

(** ** A state left at [ACTIVE] *)

Lemma poll_stale_active now d screens m :
  _input_activity m = false -> no_video d ->
  delay_minutes (config m) * 60 * ms_per_second <= now - last_input_time m ->
  state m = ACTIVE ->
  _poll_inactivity now d screens m = snd (_is_video_playing d m).
Proof.
  intros Hi Hv Hle Hs. unfold _poll_inactivity, _user_is_active. rewrite Hi.
  pose proof (Hv m) as V.
  destruct (_is_video_playing_frame d m) as (S & _ & L & _).
  destruct (_is_video_playing d m) as [v m1]. cbn [fst snd] in *.
  subst v. rewrite L, S, Hs.
  destruct (Z.leb_spec (delay_minutes (config m) * 60 * ms_per_second)
              (now - last_input_time m)); [reflexivity | lia].
Qed.

Lemma _is_video_playing_signals d m :
  filter is_signal (events (snd (_is_video_playing d m)))
  = filter is_signal (events m)
  /\ screensaver_off_timer (snd (_is_video_playing d m))
     = screensaver_off_timer m.
Proof.
  unfold _is_video_playing. destruct (top_level_windows d); cbn; split;
    trivial. now rewrite filter_app_one.
Qed.

(** X3.  While the state is [ACTIVE] and no input is seen, poll cycles
    without video past the delay do nothing, whether or not a session
    exists: an overlay that was dismissed without the listeners seeing
    input is not shown again by any number of such cycles. *)
Theorem stale_active_state_blocks_activation m acts :
  state m = ACTIVE ->
  _input_activity m = false ->
  Forall (late_quiet_poll m) acts ->
  state (run acts m) = ACTIVE
  /\ is_active (run acts m) = is_active m
  /\ screensaver_windows (run acts m) = screensaver_windows m
  /\ screensaver_off_timer (run acts m) = screensaver_off_timer m
  /\ filter is_signal (events (run acts m)) = filter is_signal (events m).
Proof.
  intros Hs Hi Hall.
  assert (G : forall x,
             config x = config m /\ last_input_time x = last_input_time m
             /\ state x = ACTIVE /\ _input_activity x = false ->
             config (run acts x) = config m
             /\ last_input_time (run acts x) = last_input_time m
             /\ state (run acts x) = ACTIVE
             /\ is_active (run acts x) = is_active x
             /\ screensaver_windows (run acts x) = screensaver_windows x
             /\ screensaver_off_timer (run acts x) = screensaver_off_timer x
             /\ filter is_signal (events (run acts x))
                = filter is_signal (events x)).
  { induction Hall as [|a acts Ha Hall IH]; intros x (Hc & Hl & Hx & Hf).
    - now repeat split.
    - cbn [run fold_left]. fold (run acts (step x a)).
      destruct a as [now d screens| | | | | | | |]; try contradiction.
      destruct Ha as (Hv & Hle). cbn [step].
      destruct (QTimer.due now (poll_timer x)).
      + rewrite poll_stale_active; trivial;
          [|cbn; rewrite Hc, Hl; exact Hle].
        set (x0 := set_poll_timer (QTimer.fired now (poll_timer x)) x).
        destruct (_is_video_playing_frame d x0)
          as (S & C & L & I & A & W & _).
        destruct (_is_video_playing_signals d x0) as (E & T).
        destruct (IH (snd (_is_video_playing d x0)))
          as (A1 & A2 & A3 & A4 & A5 & A6 & A7).
        { rewrite S, C, L, I. now repeat split. }
        rewrite A4, A5, A6, A7, A, W, E, T. now repeat split.
      + apply IH. now repeat split. }
  destruct (G m) as (_ & _ & A); [now repeat split | exact A].
Qed.

Lemma stale_active_state_blocks_activation_witness :
  state activated_then_dismissed = ACTIVE
  /\ _input_activity activated_then_dismissed = false
  /\ is_active activated_then_dismissed = false
  /\ is_active
       (run [PollTimeout 331000 quiet_desktop [display 0];
             PollTimeout 361000 quiet_desktop [display 0]]
          activated_then_dismissed) = false.
Proof.
  assert (Q : no_video quiet_desktop) by (intros m; reflexivity).
  split; [reflexivity|]. split; [reflexivity|]. split; [reflexivity|].
  assert (F : Forall (late_quiet_poll activated_then_dismissed)
                [PollTimeout 331000 quiet_desktop [display 0];
                 PollTimeout 361000 quiet_desktop [display 0]]).
  { repeat constructor; try exact Q; vm_compute; discriminate. }
  exact (proj1 (proj2
           (stale_active_state_blocks_activation activated_then_dismissed
              [PollTimeout 331000 quiet_desktop [display 0];
               PollTimeout 361000 quiet_desktop [display 0]]
              eq_refl eq_refl F))).
Defined.

(** ** The activity flag *)

(** X4.  Any burst of mouse and keyboard events between two poll cycles
    leaves the manager as one event does, with the flag set and nothing
    else changed; reading the flag then reports activity once, and a
    second reading reports none. *)
Theorem input_burst_is_one_activity es m :
  es <> [] ->
  forallb is_input es = true ->
  alive (_mouse_listener m) = true ->
  alive (_keyboard_listener m) = true ->
  run es m = set_input_activity true m
  /\ fst (_user_is_active (run es m)) = true
  /\ fst (_user_is_active (snd (_user_is_active (run es m)))) = false.
Proof.
  intros Hne Hall Hm Hk.
  assert (E : forall es x,
             forallb is_input es = true ->
             x = set_input_activity true m ->
             run es x = set_input_activity true m).
  { clear es Hne Hall.
    induction es as [|a es IH]; intros x Hall ->; [reflexivity|].
    cbn in Hall. apply andb_prop in Hall as [Ha Hall].
    cbn [run fold_left]. fold (run es (step (set_input_activity true m) a)).
    apply IH; [assumption|].
    destruct a; try discriminate; cbn [step]; unfold on_mouse, on_keyboard;
      cbn; now rewrite ?Hm, ?Hk. }
  assert (R : run es m = set_input_activity true m).
  { destruct es as [|a es]; [now elim Hne|].
    cbn in Hall. apply andb_prop in Hall as [Ha Hall].
    cbn [run fold_left]. fold (run es (step m a)).
    apply E; [assumption|].
    destruct a; try discriminate; cbn [step]; unfold on_mouse, on_keyboard;
      now rewrite ?Hm, ?Hk. }
  rewrite R. now repeat split.
Qed.

Lemma input_burst_is_one_activity_witness :
  [MouseEvent; KeyboardEvent; MouseEvent; MouseEvent] <> []
  /\ forallb is_input [MouseEvent; KeyboardEvent; MouseEvent; MouseEvent] = true
  /\ alive (_mouse_listener fresh_manager) = true
  /\ alive (_keyboard_listener fresh_manager) = true
  /\ run [MouseEvent; KeyboardEvent; MouseEvent; MouseEvent] fresh_manager
     = run [KeyboardEvent] fresh_manager.
Proof.
  assert (N : [MouseEvent; KeyboardEvent; MouseEvent; MouseEvent] <> [])
    by discriminate.
  split; [exact N|]. split; [reflexivity|]. split; [reflexivity|].
  split; [reflexivity|].
  rewrite (proj1 (input_burst_is_one_activity
                    [MouseEvent; KeyboardEvent; MouseEvent; MouseEvent]
                    fresh_manager N eq_refl eq_refl eq_refl)).
  reflexivity.
Defined.

(** ** Configuration updates *)





(** ** What activation and deactivation do to the timers *)



Section UpdateStable.

Variable P : ScreensaverManager -> Prop.
Hypothesis HPu : forall i f m, P m -> P (update_window i f m).



End UpdateStable.







(** ** The screen-off timer fires once *)

Lemma stable_off_single_shot : deactivation_stable off_single_shot.
Proof. constructor; unfold off_single_shot; intros; auto. Qed.

Lemma activate_single_shot now screens m :
  off_single_shot m -> off_single_shot (_activate_screensaver now screens m).
Proof.
  unfold off_single_shot, _activate_screensaver. intros H.
  destruct (is_active m); [assumption|].
  destruct (create_windows_cases screens
              (emit (Log_info "Activating screensaver...") m))
    as [(ws & E & _)|(e & ws & E)]; rewrite E; clear E; cbn.
  - now destruct (0 <? _).
  - assumption.
Qed.

Lemma step_single_shot m a : off_single_shot m -> off_single_shot (step m a).
Proof.
  intros Hm.
  destruct a as [now d screens|now screens|now|now i| | |now cfg
                |now perr|now]; cbn [step].
  - destruct (QTimer.due now (poll_timer m)); [|assumption].
    destruct (poll_cases now d screens
                (set_poll_timer (QTimer.fired now (poll_timer m)) m))
      as (m1 & _ & _ & B & _ & _ & [E|[(s & E)|E]]); rewrite E;
      assert (H1 : off_single_shot m1)
        by (unfold off_single_shot; now rewrite B);
      unfold off_single_shot.
    + assumption.
    + now rewrite (proj1 (proj2 (proj2 (proj2 (proj2
                     (_set_state_frame s m1)))))).
    + rewrite (proj1 (proj2 (proj2 (proj2 (proj2
                 (_set_state_frame ACTIVE _)))))).
      now apply activate_single_shot.
  - unfold toggle_screensaver. destruct (is_active m).
    + now apply (deactivate_stable _ _ _ stable_off_single_shot).
    + now apply activate_single_shot.
  - now apply (deactivate_stable _ _ _ stable_off_single_shot).
  - now apply (overlay_input_stable _ _ _ _ stable_off_single_shot).
  - unfold on_mouse. now destruct (alive _).
  - unfold on_keyboard. now destruct (alive _).
  - unfold off_single_shot in *. cbn.
    destruct (config_updated_connected m); [|assumption].
    unfold _on_config_updated, start_monitoring, stop_monitoring,
      QTimer.isActive. cbn.
    destruct (enable_auto_activation cfg);
      destruct (QTimer.active (poll_timer m)); cbn;
      destruct (QTimer.active (screensaver_off_timer m)); cbn;
      try destruct (0 <? _); cbn; assumption.
  - unfold off_single_shot in *.
    destruct (QTimer.due now _); [|assumption].
    unfold QTimer.fired. rewrite Hm. cbn.
    destruct (off_timer_connected m); cbn; [|assumption].
    unfold _turn_off_screen. now destruct perr.
  - unfold cleanup, off_single_shot. cbn [emit screensaver_off_timer].
    rewrite (proj1 (proj2 (proj2 (disconnect_slots_frame _)))).
    now apply (deactivate_stable _ _ _ stable_off_single_shot).
Qed.

Lemma run_single_shot acts : forall m,
  off_single_shot m -> off_single_shot (run acts m).
Proof.
  induction acts as [|a acts IH]; intros m Hm; [assumption|].
  apply (IH (step m a)). now apply step_single_shot.
Qed.

Lemma init_single_shot now herr cfg : off_single_shot (__init__ now herr cfg).
Proof.
  unfold off_single_shot, __init__. cbn.
  now destruct (enable_auto_activation cfg).
Qed.

(** X10.  In every state the event loop reaches from construction, a
    timeout of the screen-off timer disarms it, since it is single-shot:
    the power command is sent at most once for one arming, exactly once
    when the slot is connected and the command does not raise, and a
    further timeout does nothing.  The timeout happens inside a session
    and ends neither the session nor changes the state field: the
    overlay stays up with the screen switched off. *)
Theorem screen_off_fires_once_per_arming now0 herr cfg acts now perr :
  QTimer.due now (screensaver_off_timer (run acts (__init__ now0 herr cfg)))
  = true ->
  let m := run acts (__init__ now0 herr cfg) in
  let m1 := step m (OffTimerTimeout now perr) in
  off_timer_idle m1
  /\ is_active m = true
  /\ is_active m1 = true
  /\ screensaver_windows m1 = screensaver_windows m
  /\ state m1 = state m
  /\ (power_off_count m1 <= S (power_off_count m))%nat
  /\ (off_timer_connected m = true -> perr = None ->
      power_off_count m1 = S (power_off_count m))
  /\ (forall now' perr', step m1 (OffTimerTimeout now' perr') = m1).
Proof.
  intros Hdue. cbv zeta.
  remember (run acts (__init__ now0 herr cfg)) as m eqn:Em.
  remember (step m (OffTimerTimeout now perr)) as m1 eqn:Em1.
  assert (Hss : off_single_shot m)
    by (rewrite Em; apply run_single_shot, init_single_shot).
  assert (Harm : armed_inv m)
    by (rewrite Em; apply run_armed_inv, init_invariants).
  assert (Hact : is_active m = true).
  { destruct (is_active m) eqn:H; [reflexivity|].
    specialize (Harm H). unfold off_timer_idle in Harm.
    unfold QTimer.due in Hdue. rewrite Harm in Hdue. discriminate. }
  assert (Hidle : off_timer_idle m1).
  { subst m1. cbn [step]. rewrite Hdue. unfold off_timer_idle, QTimer.fired.
    rewrite Hss.
    destruct (off_timer_connected _); cbn; [|reflexivity].
    unfold _turn_off_screen. now destruct perr. }
  split; [exact Hidle|]. split; [exact Hact|].
  assert (F : is_active m1 = is_active m
              /\ screensaver_windows m1 = screensaver_windows m
              /\ state m1 = state m
              /\ (power_off_count m1 <= S (power_off_count m))%nat
              /\ (off_timer_connected m = true -> perr = None ->
                  power_off_count m1 = S (power_off_count m))).
  { subst m1. cbn [step]. rewrite Hdue. cbn.
    unfold power_off_count.
    destruct (off_timer_connected m); cbn.
    - unfold _turn_off_screen.
      destruct perr; cbn; rewrite !filter_app; cbn;
        rewrite ?app_nil_r, ?length_app; cbn; repeat split;
        try lia; try discriminate; congruence.
    - repeat split; try lia; try discriminate. }
  destruct F as (A & B & C & D & E).
  repeat split; try assumption; try congruence.
  intros now' perr'. cbn [step]. unfold QTimer.due.
  unfold off_timer_idle in Hidle. now rewrite Hidle.
Qed.

Lemma screen_off_fires_once_per_arming_witness :
  QTimer.due 70000
    (screensaver_off_timer
       (run [ToggleHotkey 7000 [display 0]]
          (__init__ 0 None one_minute_off_config))) = true
  /\ power_off_count
       (run [ToggleHotkey 7000 [display 0]; OffTimerTimeout 70000 None;
             OffTimerTimeout 140000 None]
          (__init__ 0 None one_minute_off_config)) = 1%nat
  /\ is_active
       (step (run [ToggleHotkey 7000 [display 0]]
                (__init__ 0 None one_minute_off_config))
          (OffTimerTimeout 70000 None)) = true.
Proof.
  split; [reflexivity|]. split; [reflexivity|].
  exact (proj1 (proj2 (proj2
           (screen_off_fires_once_per_arming 0 None one_minute_off_config
              [ToggleHotkey 7000 [display 0]] 70000 None eq_refl)))).
Defined.

(** ** The foreground check *)








(** ** Dictionaries and the heap *)



Lemma nth_update_nth {A} (f : A -> A) (dflt : A) : forall l i a,
  nth a (update_nth i f l) dflt
  = if ((a =? i) && (a <? List.length l))%nat then f (nth a l dflt)
    else nth a l dflt.
Proof.
  induction l as [|x l IH]; intros [|i] [|a]; cbn;
    rewrite ?andb_false_r; try reflexivity.
  exact (IH i a).
Qed.

Lemma length_update_nth {A} (f : A -> A) : forall l i,
  List.length (update_nth i f l) = List.length l.
Proof.
  induction l as [|x l IH]; intros [|i]; cbn; try reflexivity.
  now rewrite IH.
Qed.



Lemma heap_dict_store_other h ref a key v :
  a <> ref -> heap_dict (heap_store h ref key v) a = heap_dict h a.
Proof.
  intros H. unfold heap_dict, heap_store. rewrite nth_update_nth.
  apply Nat.eqb_neq in H. now rewrite H.
Qed.



Lemma heap_dict_outside h a : (List.length h <= a)%nat -> heap_dict h a = [].
Proof. intros H. unfold heap_dict. now apply nth_overflow. Qed.

(** ** Acyclic heaps *)




Lemma ranked_ext r r' h :
  (forall a, (a < List.length h)%nat -> r' a = r a) ->
  ranked r h -> ranked r' h.
Proof.
  intros He Hr a k sub Ha Hget. destruct (Hr a k sub Ha Hget) as (A & B).
  split; [assumption|]. rewrite !He by assumption. exact B.
Qed.

(** ** Reading along a path *)




(** Reading elsewhere after a store below or beside. *)
Lemma get_from_store_other r h target key v : forall keys x,
  ranked r h ->
  (forall ref, x = VDict ref -> (ref < List.length h)%nat /\ r ref < r target) ->
  get_from (heap_store h target key v) x keys = get_from h x keys.
Proof.
  induction keys as [|k keys IH]; intros x Hr Hx; cbn; [reflexivity|].
  destruct x as [| | | | | |ref]; try reflexivity.
  destruct (Hx ref eq_refl) as (A & B).
  rewrite heap_dict_store_other by (intros ->; lia).
  destruct (dict_get (heap_dict h ref) k) as [y|] eqn:E; [|reflexivity].
  apply IH; [assumption|].
  intros sub ->. destruct (Hr ref k sub A E). split; [assumption | lia].
Qed.

(** ** The walk of [set] *)








(** ** The rank check *)




(** ** [set], [get] and [reset_to_defaults] *)










(** X14.  [get] returns the caller's default when the path cannot be
    walked: when a prefix of the keys leads to a dictionary that lacks the
    next key, or to a value that is no dictionary.  It returns the stored
    value otherwise, and never changes the configuration. *)
Theorem get_default_on_unreadable_path cm key_path prefix key rest x d :
  split_dots key_path = prefix ++ key :: rest ->
  get_from (cm_heap cm) (VDict (config_ref cm)) prefix = Some x ->
  (forall ref, x = VDict ref ->
               dict_get (heap_dict (cm_heap cm) ref) key = None) ->
  get cm key_path d = d.
Proof.
  intros Ek Hp Hx. unfold get. rewrite Ek.
  assert (G : forall keys v,
             get_from (cm_heap cm) v keys = Some x ->
             get_from (cm_heap cm) v (keys ++ key :: rest) = None).
  { induction keys as [|k keys IH]; intros v; cbn.
    - intros [= ->]. destruct x as [| | | | | |ref]; try reflexivity.
      now rewrite (Hx ref eq_refl).
    - destruct v as [| | | | | |ref]; try discriminate.
      destruct (dict_get (heap_dict (cm_heap cm) ref) k); [|discriminate].
      apply IH. }
  now rewrite (G prefix _ Hp).
Qed.

Lemma get_default_on_unreadable_path_witness :
  get fresh_config_manager "system.turn_off_screen_delay_minutes" (VInt 0)
  = VInt 0
  /\ get fresh_config_manager "display.theme.accent" (VStr "none")
     = VStr "none"
  /\ get fresh_config_manager "display.theme" (VStr "none") = VStr "dark".
Proof.
  split; [|split; [|reflexivity]].
  - apply (get_default_on_unreadable_path fresh_config_manager
             "system.turn_off_screen_delay_minutes" ["system"]
             "turn_off_screen_delay_minutes" [] (VDict 4) (VInt 0));
      try reflexivity.
    now intros ref [= <-].
  - apply (get_default_on_unreadable_path fresh_config_manager
             "display.theme.accent" ["display"; "theme"]
             "accent" [] (VStr "dark") (VStr "none"));
      try reflexivity.
    discriminate.
Defined.

(** ** After cleanup *)

Lemma poll_cases_connections now d screens m :
  exists m1,
    config_updated_connected m1 = config_updated_connected m
    /\ off_timer_connected m1 = off_timer_connected m
    /\ (_poll_inactivity now d screens m = m1
        \/ (exists s, _poll_inactivity now d screens m = _set_state s m1)
        \/ _poll_inactivity now d screens m
           = _set_state ACTIVE (_activate_screensaver now screens m1)).
Proof.
  unfold _poll_inactivity, _user_is_active.
  destruct (_input_activity m).
  - exists (set_last_input_time now (set_input_activity false m)).
    repeat split. destruct (negb _); [right; left; eauto | now left].
  - unfold _is_video_playing.
    destruct (top_level_windows d) as [e|hwnds].
    + exists (emit (Log_error ("Error in video detection: " ++ e)) m).
      repeat split. cbn [fst snd]. cbv iota.
      destruct (_ <=? _); [|right; left; eauto].
      destruct (negb _); [now right; right | now left].
    + exists m. repeat split.
      destruct (existsb _ _); [right; left; eauto|].
      destruct (_ <=? _); [|right; left; eauto].
      destruct (negb _); [now right; right | now left].
Qed.

Lemma _set_state_connections s m :
  config_updated_connected (_set_state s m) = config_updated_connected m
  /\ off_timer_connected (_set_state s m) = off_timer_connected m.
Proof. unfold _set_state. now destruct (negb _). Qed.

Lemma activate_connections now screens m :
  config_updated_connected (_activate_screensaver now screens m)
  = config_updated_connected m
  /\ off_timer_connected (_activate_screensaver now screens m)
     = off_timer_connected m.
Proof.
  destruct (outside_session_fields _ _
              (proj1 (activate_outside_session now screens m)))
    as (_ & _ & _ & _ & _ & _ & A & B).
  now split.
Qed.

Lemma deactivate_connections now m :
  config_updated_connected (deactivate_screensaver now m)
  = config_updated_connected m
  /\ off_timer_connected (deactivate_screensaver now m)
     = off_timer_connected m.
Proof.
  destruct (outside_session_fields _ _ (deactivate_outside_session now m))
    as (_ & _ & _ & _ & _ & _ & A & B).
  now split.
Qed.

(** Every step but cleanup leaves the two connections as they are. *)
Lemma step_connections m a :
  (forall now, a <> Cleanup now) ->
  config_updated_connected (step m a) = config_updated_connected m
  /\ off_timer_connected (step m a) = off_timer_connected m.
Proof.
  intros Ha.
  destruct a as [now d screens|now screens|now|now i| | |now cfg
                |now perr|now]; cbn [step].
  - destruct (QTimer.due now (poll_timer m)); [|now split].
    destruct (poll_cases_connections now d screens
                (set_poll_timer (QTimer.fired now (poll_timer m)) m))
      as (m1 & A & B & [E|[(s & E)|E]]); rewrite E.
    + now split.
    + destruct (_set_state_connections s m1) as (A' & B').
      rewrite A', B'. now split.
    + destruct (_set_state_connections ACTIVE
                  (_activate_screensaver now screens m1)) as (A' & B').
      destruct (activate_connections now screens m1) as (A'' & B'').
      rewrite A', B', A'', B''. now split.
  - unfold toggle_screensaver. destruct (is_active m).
    + apply deactivate_connections.
    + apply activate_connections.
  - apply deactivate_connections.
  - destruct (outside_session_fields (overlay_input now i m) m)
      as (_ & _ & _ & _ & _ & _ & A & B); [|now split].
    now apply (overlay_input_stable _ _ _ _ (stable_outside_session _)).
  - unfold on_mouse. now destruct (alive _).
  - unfold on_keyboard. now destruct (alive _).
  - cbn. destruct (config_updated_connected m) eqn:Ec; [|now split].
    unfold _on_config_updated, start_monitoring, stop_monitoring,
      QTimer.isActive. cbn.
    destruct (enable_auto_activation cfg);
      destruct (QTimer.active (poll_timer m)); cbn;
      destruct (QTimer.active (screensaver_off_timer m)); cbn;
      try destruct (0 <? _); cbn; now split.
  - destruct (QTimer.due now _); [|now split]. cbn.
    destruct (off_timer_connected m) eqn:Eo; cbn; [|now split].
    unfold _turn_off_screen. now destruct perr.
  - now elim (Ha now).
Qed.

Lemma cleanup_connections now m :
  config_updated_connected m = off_timer_connected m ->
  config_updated_connected (cleanup now m) = false
  /\ off_timer_connected (cleanup now m) = false.
Proof.
  intros H. unfold cleanup.
  destruct (deactivate_connections now
              (stop_monitoring
                 (emit (Log_info "Performing ScreensaverManager cleanup...")
                    m))) as (A & B).
  cbn in A, B. rewrite <- H in B.
  generalize dependent (deactivate_screensaver now
              (stop_monitoring
                 (emit (Log_info "Performing ScreensaverManager cleanup...")
                    m))).
  intros x A B. unfold disconnect_slots. cbn.
  destruct (config_updated_connected x) eqn:Ex.
  - cbn. rewrite B, <- A. cbn. now split.
  - cbn. rewrite Ex, B, <- A. now split.
Qed.

Lemma run_connections_equal acts : forall m,
  config_updated_connected m = off_timer_connected m ->
  config_updated_connected (run acts m) = off_timer_connected (run acts m).
Proof.
  induction acts as [|a acts IH]; intros m H; [assumption|].
  cbn [run fold_left]. fold (run acts (step m a)). apply IH.
  destruct a as [now d screens|now screens|now|now i| | |now cfg
                |now perr|now];
    try (match goal with
         | |- context [step m ?a] =>
             destruct (step_connections m a) as (A & B);
             [discriminate | now rewrite A, B]
         end).
  destruct (cleanup_connections now m H) as (A & B). cbn [step].
  now rewrite A, B.
Qed.

(** With the screen-off slot disconnected, no step sends the power
    command, and the slot stays disconnected. *)
Lemma step_disconnected m a :
  config_updated_connected m = false -> off_timer_connected m = false ->
  config_updated_connected (step m a) = false
  /\ off_timer_connected (step m a) = false
  /\ power_off_count (step m a) = power_off_count m.
Proof.
  intros Hc Ho.
  assert (Conn : config_updated_connected (step m a) = false
                 /\ off_timer_connected (step m a) = false).
  { destruct a as [now d screens|now screens|now|now i| | |now cfg
                  |now perr|now];
      try (match goal with
           | |- context [step m ?a] =>
               destruct (step_connections m a) as (A & B);
               [discriminate | now rewrite A, B]
           end).
    apply cleanup_connections. congruence. }
  destruct Conn as (A & B). split; [exact A|]. split; [exact B|].
  destruct a as [now d screens|now screens|now|now i| | |now cfg
                |now perr|now]; cbn [step].
  - destruct (QTimer.due now (poll_timer m)); [|reflexivity].
    destruct (poll_cases now d screens
                (set_poll_timer (QTimer.fired now (poll_timer m)) m))
      as (m1 & _ & _ & _ & _ & C & [E|[(s & E)|E]]); rewrite E.
    + exact C.
    + now rewrite (proj2 (proj2 (proj2 (proj2 (proj2 (proj2 (proj2
                     (_set_state_frame s m1)))))))).
    + rewrite (proj2 (proj2 (proj2 (proj2 (proj2 (proj2 (proj2
                 (_set_state_frame ACTIVE _)))))))).
      now rewrite (proj2 (activate_outside_session now screens m1)).
  - unfold toggle_screensaver. destruct (is_active m).
    + apply deactivate_power_off_count.
    + apply (activate_outside_session now screens m).
  - apply deactivate_power_off_count.
  - now apply (overlay_input_stable _ _ _ _ (stable_power_off_count _)).
  - unfold on_mouse. now destruct (alive _).
  - unfold on_keyboard. now destruct (alive _).
  - cbn. now rewrite Hc.
  - destruct (QTimer.due now _); [|reflexivity]. cbn. now rewrite Ho.
  - apply cleanup_power_off_count.
Qed.

Lemma init_connections now herr cfg :
  config_updated_connected (__init__ now herr cfg)
  = off_timer_connected (__init__ now herr cfg).
Proof. unfold __init__. cbn. now destruct (enable_auto_activation cfg). Qed.

(** X15.  After [cleanup], in whatever state the event loop had reached,
    both slots are disconnected and stay so: however the loop goes on,
    the power command is never sent again, and a configuration update
    changes the values the manager reads but neither of its timers. *)
Theorem after_cleanup_no_power_command now0 herr cfg acts now later :
  config_updated_connected
    (cleanup now (run acts (__init__ now0 herr cfg))) = false
  /\ off_timer_connected
       (cleanup now (run acts (__init__ now0 herr cfg))) = false
  /\ power_off_count
       (run later (cleanup now (run acts (__init__ now0 herr cfg))))
     = power_off_count (run acts (__init__ now0 herr cfg))
  /\ (forall now' cfg',
        poll_timer
          (step (run later (cleanup now (run acts (__init__ now0 herr cfg))))
             (ConfigUpdated now' cfg'))
        = poll_timer
            (run later (cleanup now (run acts (__init__ now0 herr cfg))))
        /\ screensaver_off_timer
             (step
                (run later (cleanup now (run acts (__init__ now0 herr cfg))))
                (ConfigUpdated now' cfg'))
           = screensaver_off_timer
               (run later (cleanup now (run acts (__init__ now0 herr cfg))))).
Proof.
  remember (run acts (__init__ now0 herr cfg)) as m eqn:Em.
  assert (He : config_updated_connected m = off_timer_connected m)
    by (rewrite Em; apply run_connections_equal, init_connections).
  destruct (cleanup_connections now m He) as (A & B).
  assert (G : forall later x,
             config_updated_connected x = false ->
             off_timer_connected x = false ->
             config_updated_connected (run later x) = false
             /\ off_timer_connected (run later x) = false
             /\ power_off_count (run later x) = power_off_count x).
  { clear. induction later as [|a later IH]; intros x Hc Ho; [now repeat split|].
    cbn [run fold_left]. fold (run later (step x a)).
    destruct (step_disconnected x a Hc Ho) as (C & D & E).
    destruct (IH (step x a) C D) as (C' & D' & E').
    rewrite C', D', E', E. now repeat split. }
  destruct (G later _ A B) as (C & D & E).
  split; [exact A|]. split; [exact B|]. split.
  - rewrite E. apply cleanup_power_off_count.
  - intros now' cfg'. cbn [step].
    cbn [set_config config_updated_connected]. rewrite C. now split.
Qed.

Lemma after_cleanup_no_power_command_witness :
  QTimer.active
    (screensaver_off_timer
       (run [ToggleHotkey 9000 [display 0]]
          (cleanup 5000
             (run [MouseEvent] (__init__ 0 None one_minute_off_config)))))
  = true
  /\ power_off_count
       (run [ToggleHotkey 9000 [display 0]; OffTimerTimeout 69000 None]
          (cleanup 5000
             (run [MouseEvent] (__init__ 0 None one_minute_off_config))))
     = 0%nat.
Proof.
  split; [reflexivity|].
  exact (proj1 (proj2 (proj2
           (after_cleanup_no_power_command 0 None one_minute_off_config
              [MouseEvent] 5000
              [ToggleHotkey 9000 [display 0]; OffTimerTimeout 69000 None])))).
Defined.

(** ** A window left by a failed activation *)

Lemma update_nth_compose {A} (f g : A -> A) : forall l i,
  update_nth i f (update_nth i g l) = update_nth i (fun x => f (g x)) l.
Proof.
  induction l as [|x l IH]; intros [|i]; cbn; try reflexivity.
  now rewrite IH.
Qed.

Lemma nth_error_update_nth {A} (f : A -> A) : forall l i x,
  nth_error l i = Some x -> nth_error (update_nth i f l) i = Some (f x).
Proof.
  induction l as [|y l IH]; intros [|i] x; cbn; try discriminate.
  - now intros [= ->].
  - apply IH.
Qed.

Lemma update_nth_ext {A} (f g : A -> A) : forall l i x,
  nth_error l i = Some x -> f x = g x -> update_nth i f l = update_nth i g l.
Proof.
  induction l as [|y l IH]; intros [|i] x; cbn; try discriminate.
  - now intros [= ->] ->.
  - intros H E. now rewrite (IH i x H E).
Qed.

(** X16.  Input on an overlay window that is on screen while no session
    is active, as a failed activation leaves it, closes that window
    only: it is hidden and its redraw timer stopped, but it stays in the
    manager's list; nothing else of the manager changes and no signal is
    emitted. *)
Theorem input_on_leftover_window_hides_it now i w m :
  is_active m = false ->
  nth_error (screensaver_windows m) i = Some w ->
  shown w = true ->
  is_closing w = false ->
  overlay_input now i m
  = set_windows (update_nth i closed_window (screensaver_windows m)) m
  /\ List.length (screensaver_windows (overlay_input now i m))
     = List.length (screensaver_windows m)
  /\ events (overlay_input now i m) = events m
  /\ is_active (overlay_input now i m) = false.
Proof.
  intros Ha Hn Hs Hc.
  assert (E : overlay_input now i m
              = set_windows (update_nth i closed_window (screensaver_windows m))
                  m).
  { unfold overlay_input. rewrite Hn, Hs.
    unfold close_window. rewrite Hn, Hc. unfold closeEvent.
    unfold deactivate_slot. rewrite deactivate_fuel_inactive by exact Ha.
    unfold update_window. cbn [set_windows screensaver_windows].
    rewrite !update_nth_compose.
    rewrite (update_nth_ext _ closed_window _ i w Hn); [now destruct m|].
    reflexivity. }
  rewrite E. cbn. rewrite length_update_nth. now repeat split.
Qed.

Lemma input_on_leftover_window_hides_it_witness :
  is_active manager_after_failed_activation = false
  /\ nth_error (screensaver_windows manager_after_failed_activation) 0
     = Some (showFullScreen (new_window (display 0)))
  /\ screensaver_windows (overlay_input 2000 0 manager_after_failed_activation)
     = [closed_window (showFullScreen (new_window (display 0)))].
Proof.
  split; [reflexivity|]. split; [reflexivity|].
  rewrite (proj1 (input_on_leftover_window_hides_it 2000 0
                    (showFullScreen (new_window (display 0)))
                    manager_after_failed_activation
                    eq_refl eq_refl eq_refl eq_refl)).
  reflexivity.
Defined.
